(** * Meta Pixel "Contact" tracking helper: src/utils/pixelTracking.js

    A shallow embedding of the module and of the fragment of ECMAScript it
    runs on, followed by the properties of its three entry points
    ([trackContactEvent], [handlePhoneCall], [checkPixelStatus]).

    Conventions of the embedding:
    - a string is its sequence of UTF-16 code units;
    - a Number is an IEEE 754 binary64 datum ([spec_float]); a time value
      (what [Date.now()] returns and what the module stores) is integral and
      below 2^53 in magnitude, so it is carried as a [Z];
    - the module's effects (console lines, calls of foreign functions, timers)
      are recorded in order in a trace; the mutable part of [window] it
      touches is threaded as state; an abrupt completion is a value;
    - foreign callables (the pixel hook [fbq], the methods of the click
      event) are collaborators outside the module: a call of one is recorded
      and then returns or throws, as the host has it; the module has no
      [try], so what a callable throws ends the operation that called it;
      a callable does not write the module's guard;
    - the module runs in a page, where [window] exists; its parameters have
      the types its documentation gives them (a Number, strings, an event or
      null). *)

From Stdlib Require Import ZArith NArith List String Ascii Bool Lia Sorted.
From Stdlib Require Import Floats.SpecFloat.
From Stdlib Require Import Decimal DecimalString DecimalN.
Import ListNotations.

Local Open Scope Z_scope.

(* ===================================================================== *)
(** * The host language fragment *)
(* ===================================================================== *)

Module Js.

(** ** Strings *)

(** A string value: UTF-16 code units. *)
Definition jsstring := list N.

(** An ASCII source literal as a string value. *)
Definition lit (s : string) : jsstring :=
  map N_of_ascii (list_ascii_of_string s).

(** The code unit of the double quote, which the source writes inside its
    template literals. *)
Definition dquote : jsstring := [34%N].

(** ** Numbers *)

Definition number := spec_float.

(** The decimal digits of a natural number, ["0"] for zero. *)
Definition digits_of_N (n : N) : jsstring :=
  lit (NilZero.string_of_uint (N.to_uint n)).

(** [Number::toString] on an integral Number of magnitude below 10^21 (all
    differences of time values are): plain decimal digits, with a sign. *)
Definition Z_toString (n : Z) : jsstring :=
  match n with
  | Z0 => lit "0"
  | Zpos p => digits_of_N (Npos p)
  | Zneg p => lit "-" ++ digits_of_N (Npos p)
  end.

(** The number a string of decimal digits denotes, read left to right,
    [acc] being what was read so far. *)
Definition read_from (acc : N) (s : jsstring) : N :=
  fold_left (fun acc c => 10 * acc + (c - 48))%N s acc.

Definition digits_value (s : jsstring) : N := read_from 0 s.

Definition is_digit (c : N) : bool := ((48 <=? c) && (c <=? 57))%N.

(** [k] zero digits. *)
Definition zeros (k : nat) : jsstring := repeat 48%N k.

(** The integer [n] for which [n / 10^f - m * 2^e] is as close to zero as
    possible, the larger one when there are two (ECMAScript
    Number.prototype.toFixed, step 10.a), for the non-negative real
    [m * 2^e]. *)
Definition nearest_scaled (f : nat) (m : positive) (e : Z) : Z :=
  let p := Z.pow 10 (Z.of_nat f) in
  if 0 <=? e then Zpos m * Z.pow 2 e * p
  else (2 * Zpos m * p + Z.pow 2 (- e)) / (2 * Z.pow 2 (- e)).

(** Whether the non-negative real [m * 2^e] is at least 10^21. *)
Definition at_least_1e21 (m : positive) (e : Z) : bool :=
  if 0 <=? e then Z.pow 10 21 <=? Zpos m * Z.pow 2 e
  else Z.pow 10 21 * Z.pow 2 (- e) <=? Zpos m.

(** Steps 10.b to 10.d of toFixed: the digits of [n] with a point before the
    last [f] of them, zero-padded on the left to [f + 1] digits. *)
Definition fixed_digits (f : nat) (n : Z) : jsstring :=
  let m := digits_of_N (Z.to_N n) in
  match f with
  | O => m
  | _ =>
    let k := List.length m in
    let m' := if (k <=? f)%nat then zeros (f + 1 - k) ++ m else m in
    let k' := List.length m' in
    firstn (k' - f) m' ++ lit "." ++ skipn (k' - f) m'
  end.

(** ** Values *)

(** Foreign functions are opaque; one is known by an identity. *)
Definition FunId := N.

(** The values the module handles. [VInt] is an integral Number (a time
    value); [VObject] lists the properties visible through an object, own or
    inherited. *)
#[local] Set Warnings "-register-all".
Inductive JsValue : Type :=
| VUndefined
| VNull
| VBool (b : bool)
| VNumber (x : number)
| VInt (n : Z)
| VString (s : jsstring)
| VObject (props : list (string * JsValue))
| VFunction (f : FunId).

(** [typeof v === 'function'] *)
Definition typeof_is_function (v : JsValue) : bool :=
  match v with
  | VFunction _ => true
  | _ => false
  end.

(** [ToBoolean], the test of [if (v)]. *)
Definition ToBoolean (v : JsValue) : bool :=
  match v with
  | VUndefined | VNull => false
  | VBool b => b
  | VNumber (S754_zero _) | VNumber S754_nan => false
  | VNumber _ => true
  | VInt n => negb (n =? 0)
  | VString s => match s with [] => false | _ => true end
  | VObject _ | VFunction _ => true
  end.

Fixpoint lookup_prop (p : string) (props : list (string * JsValue)) : JsValue :=
  match props with
  | [] => VUndefined
  | (k, v) :: rest => if String.eqb k p then v else lookup_prop p rest
  end.

(** ** Regular expression character classes *)

(** [WhiteSpace] and [LineTerminator] code points, what [\s] matches. *)
Definition is_js_space (c : N) : bool :=
  ((c =? 9) || (c =? 10) || (c =? 11) || (c =? 12) || (c =? 13) ||
   (c =? 32) || (c =? 160) || (c =? 5760) ||
   ((8192 <=? c) && (c <=? 8202)) ||
   (c =? 8232) || (c =? 8233) || (c =? 8239) || (c =? 8287) ||
   (c =? 12288) || (c =? 65279))%N.

Inductive ClassAtom : Type :=
| ClassEscape_s
| ClassChar (c : N)
| ClassRange (lo hi : N).

Definition atom_matches (a : ClassAtom) (c : N) : bool :=
  match a with
  | ClassEscape_s => is_js_space c
  | ClassChar d => (c =? d)%N
  | ClassRange lo hi => ((lo <=? c) && (c <=? hi))%N
  end.

Definition class_matches (cls : list ClassAtom) (c : N) : bool :=
  existsb (fun a => atom_matches a c) cls.

(** [s.replace(/[cls]/g, replacement)] for a replacement without [$]
    patterns: the matches of a one-unit class are the units in it, taken
    left to right. *)
Fixpoint replace_class_g (cls : list ClassAtom) (replacement s : jsstring)
  : jsstring :=
  match s with
  | [] => []
  | c :: rest =>
    if class_matches cls c
    then replacement ++ replace_class_g cls replacement rest
    else c :: replace_class_g cls replacement rest
  end.

(** ** Effects and completions *)

Inductive Level : Type := LLog | LWarn | LError.

(** The callback handed to [setTimeout], defunctionalised: the module has
    one, the arrow function assigning [window.location.href]. *)
Inductive TimerCallback : Type :=
| AssignLocationHref (url : jsstring).

Inductive Effect : Type :=
| EConsole (lvl : Level) (args : list JsValue)
| ECall (callee : FunId) (args : list JsValue)
| ESetTimeout (cb : TimerCallback) (delay : Z).

(** What an abrupt completion carries: a TypeError of the engine, or the
    value a foreign function threw. *)
Inductive JsError : Type :=
| TypeError (msg : string)
| Thrown (v : JsValue).

Inductive Completion (A : Type) : Type :=
| Normal (a : A)
| Throw (err : JsError).
Arguments Normal {A} a.
Arguments Throw {A} err.

(** What the embedding takes from the engine and the page as given. *)
Class Host : Type := {
  (** [Number::toString], which toFixed applies to a finite magnitude of
      10^21 or more (it yields exponent notation there). *)
  Number_toString : number -> jsstring;
  (** [new Date(t).toLocaleTimeString()]: depends on the locale and the time
      zone; it returns a string for every time value. *)
  Date_toLocaleTimeString : Z -> jsstring;
  (** What a foreign function does when called with these arguments:
      [None] when it returns, the value it throws otherwise. *)
  foreign_throws : FunId -> list JsValue -> option JsValue
}.

(** [x.toFixed(f)] for [0 <= f <= 100] (Number.prototype.toFixed): a Number
    that is not finite is printed by name; otherwise the sign is split off,
    a magnitude of 10^21 or more goes to [Number::toString], a smaller one
    is rounded to [f] decimals. Both zeros print as zero, without sign. *)
Definition toFixed `{Host} (x : number) (f : nat) : jsstring :=
  match x with
  | S754_nan => lit "NaN"
  | S754_infinity false => lit "Infinity"
  | S754_infinity true => lit "-Infinity"
  | S754_zero _ => fixed_digits f 0
  | S754_finite s m e =>
    (if s then lit "-" else [])
    ++ (if at_least_1e21 m e then Number_toString (S754_finite false m e)
        else fixed_digits f (nearest_scaled f m e))
  end.

(** The part of [window] the module reads or writes. *)
Record Window : Type := mkWindow {
  _lastContactTrackTime : option Z;   (* undefined, or a stored time value *)
  fbq : JsValue;
  location_href : jsstring
}.

Record Result (A : Type) : Type := mkResult {
  completion : Completion A;
  window_after : Window;
  effects : list Effect
}.
Arguments mkResult {A} _ _ _.
Arguments completion {A} _.
Arguments window_after {A} _.
Arguments effects {A} _.

(** A computation reads the clock, transforms [window], leaves a trace and
    completes normally or abruptly. The clock does not advance within one
    synchronous run of the module's functions. *)
Definition M (A : Type) : Type := Z -> Window -> Result A.

Definition ret {A} (a : A) : M A :=
  fun _ w => mkResult (Normal a) w [].

Definition bind {A B} (c : M A) (k : A -> M B) : M B :=
  fun now w =>
    let r := c now w in
    match completion r with
    | Normal a =>
      let r' := k a now (window_after r) in
      mkResult (completion r') (window_after r') (effects r ++ effects r')
    | Throw err => mkResult (Throw err) (window_after r) (effects r)
    end.

Definition throw {A} (err : JsError) : M A :=
  fun _ w => mkResult (Throw err) w [].

Definition emit (e : Effect) : M unit :=
  fun _ w => mkResult (Normal tt) w [e].

Definition Date_now : M Z :=
  fun now w => mkResult (Normal now) w [].

Definition read_window : M Window :=
  fun _ w => mkResult (Normal w) w [].

Definition write_window (f : Window -> Window) : M unit :=
  fun _ w => mkResult (Normal tt) (f w) [].

Definition console_log (args : list JsValue) : M unit := emit (EConsole LLog args).
Definition console_warn (args : list JsValue) : M unit := emit (EConsole LWarn args).
Definition console_error (args : list JsValue) : M unit := emit (EConsole LError args).

(** [f(args)]: a TypeError when [f] is not callable; otherwise the call is
    made, and it returns or throws what the function throws. The value
    returned by a foreign function is never used by the module. *)
Definition call `{Host} (f : JsValue) (args : list JsValue) : M unit :=
  match f with
  | VFunction id =>
    bind (emit (ECall id args))
         (fun _ => match foreign_throws id args with
                   | None => ret tt
                   | Some v => throw (Thrown v)
                   end)
  | _ => throw (TypeError "not a function")
  end.

(** [v.p]: a TypeError on undefined and null; a primitive has none of the
    properties the module asks for. *)
Definition get_prop (v : JsValue) (p : string) : M JsValue :=
  match v with
  | VUndefined | VNull => throw (TypeError "cannot read properties")
  | VObject props => ret (lookup_prop p props)
  | _ => ret VUndefined
  end.

Definition setTimeout (cb : TimerCallback) (delay : Z) : M unit :=
  emit (ESetTimeout cb delay).

(** What the event loop does when the timer fires. *)
Definition run_callback (cb : TimerCallback) : M unit :=
  match cb with
  | AssignLocationHref url =>
    write_window (fun w => mkWindow (_lastContactTrackTime w) (fbq w) url)
  end.

Module Notations.
  Declare Scope js_scope.
  Delimit Scope js_scope with js.
  Notation "x <- c ;; k" := (bind c (fun x => k))
    (at level 61, c at next level, right associativity) : js_scope.
  Notation "c ;; k" := (bind c (fun _ => k))
    (at level 61, right associativity) : js_scope.
End Notations.

End Js.

(* ===================================================================== *)
(** * The module *)
(* ===================================================================== *)

Module PixelTracking.
Import Js Js.Notations.
Local Open Scope js_scope.

Section Program.
Context `{Host}.

(** [window._lastContactTrackTime || 0], the LastTrackTime of the
    specification, as a function of the state. *)
Definition LastTrackTime (w : Window) : Z :=
  match _lastContactTrackTime w with
  | Some t => if ToBoolean (VInt t) then t else 0
  | None => 0
  end.

Definition getGlobalLastTrackTime : M Z :=
  w <- read_window ;;
  ret (LastTrackTime w).

Definition setGlobalLastTrackTime (time : Z) : M unit :=
  write_window (fun w => mkWindow (Some time) (fbq w) (location_href w)).

Definition TRACK_DEBOUNCE_MS : Z := 1000.

(** 1.00 *)
Definition default_value : number := S754_finite false 4503599627370496 (-52).
Definition default_currency : jsstring := lit "USD".

Definition or_default {A} (arg : option A) (d : A) : A :=
  match arg with Some a => a | None => d end.

Definition trackContactEvent (value_arg : option number)
    (currency_arg : option jsstring) : M unit :=
  let value := or_default value_arg default_value in
  let currency := or_default currency_arg default_currency in
  currentTime <- Date_now ;;
  lastTrackTime <- getGlobalLastTrackTime ;;
  if currentTime - lastTrackTime <? TRACK_DEBOUNCE_MS then
    console_warn [VString (lit "FB Pixel: " ++ dquote ++ lit "Contact" ++ dquote
                           ++ lit " event PREVENTED (double-fire guard). Elapsed: "
                           ++ Z_toString (currentTime - lastTrackTime)
                           ++ lit "ms")]
  else
    w <- read_window ;;
    if typeof_is_function (fbq w) then
      console_log [VString (lit "FB Pixel: Manual TRACK " ++ dquote ++ lit "Contact"
                            ++ dquote ++ lit " | Value: "
                            ++ toFixed value 2
                            ++ lit " | Currency: " ++ currency)] ;;
      call (fbq w) [VString (lit "track"); VString (lit "Contact");
                    VObject [("value"%string,
                              VString (toFixed value 2));
                             ("currency"%string, VString currency)]] ;;
      setGlobalLastTrackTime currentTime
    else
      console_error [VString (lit "FB Pixel: fbq function not found on window! Ensure Pixel script is in index.html and not blocked.")].

(** The class of [/[\s-()]/g]. A [-] between a class escape and another
    atom cannot form a range: the class is the union of [\s], [-] and the
    atom, here the left parenthesis; the right parenthesis follows. *)
Definition phone_separators : list ClassAtom :=
  [ClassEscape_s; ClassChar 45; ClassChar 40; ClassChar 41].

Definition cleanNumber (phoneNumber : jsstring) : jsstring :=
  replace_class_g phone_separators [] phoneNumber.

Definition handlePhoneCall (phoneNumber : jsstring) (e_arg : option JsValue)
  : M unit :=
  let e := or_default e_arg VNull in
  console_log [VString (lit "FB Pixel: handlePhoneCall triggered for "
                        ++ phoneNumber)] ;;
  (if ToBoolean e then
     pd <- get_prop e "preventDefault" ;;
     (if typeof_is_function pd then call pd [] else ret tt) ;;
     sp <- get_prop e "stopPropagation" ;;
     (if typeof_is_function sp then call sp [] else ret tt)
   else ret tt) ;;
  trackContactEvent None None ;;
  let cleanNumber := cleanNumber phoneNumber in
  console_log [VString (lit "FB Pixel: Redirecting to tel:" ++ cleanNumber
                        ++ lit " shortly...")] ;;
  setTimeout (AssignLocationHref (lit "tel:" ++ cleanNumber)) 100.

Definition checkPixelStatus : M jsstring :=
  console_log [VString (lit "--- Pixel Status Check ---")] ;;
  w <- read_window ;;
  console_log [VString (lit "fbq available:");
               VBool (typeof_is_function (fbq w))] ;;
  t <- getGlobalLastTrackTime ;;
  console_log [VString (lit "Last track time:");
               VString (Date_toLocaleTimeString t)] ;;
  w' <- read_window ;;
  console_log [VString (lit "Global guard:");
               match _lastContactTrackTime w' with
               | Some t => VInt t
               | None => VUndefined
               end] ;;
  console_log [VString (lit "--------------------------")] ;;
  ret (lit "Check complete").

(** ** Sequences of operations *)

(** The state before the module has run: no guard stored, no pixel script
    loaded yet. *)
Definition initial_window (href : jsstring) : Window :=
  mkWindow None VUndefined href.

Inductive Op : Type :=
| OpTrack (value : option number) (currency : option jsstring)
| OpPhone (phoneNumber : jsstring) (e : option JsValue)
| OpCheck
| OpTimer (cb : TimerCallback).

Definition exec (op : Op) : M unit :=
  match op with
  | OpTrack value currency => trackContactEvent value currency
  | OpPhone phoneNumber e => handlePhoneCall phoneNumber e
  | OpCheck => _ <- checkPixelStatus ;; ret tt
  | OpTimer cb => run_callback cb
  end.

(** One turn of the event loop: the clock reads [at_time], the page has
    [hook] at [window.fbq] (the pixel script may have loaded or been blocked
    since the turn before), and [op] runs to completion. *)
Record Step : Type := mkStep {
  at_time : Z;
  hook : JsValue;
  op : Op
}.

Definition install_hook (h : JsValue) (w : Window) : Window :=
  mkWindow (_lastContactTrackTime w) h (location_href w).

Definition run_step (w : Window) (st : Step) : Result unit :=
  exec (op st) (at_time st) (install_hook (hook st) w).

(** The results of the turns, in order. *)
Fixpoint run (w : Window) (steps : list Step) : list (Result unit) :=
  match steps with
  | [] => []
  | st :: rest =>
    let r := run_step w st in
    r :: run (window_after r) rest
  end.

(** The state after all the turns. *)
Definition final_window (w : Window) (steps : list Step) : Window :=
  fold_left (fun w st => window_after (run_step w st)) steps w.

(** The LastTrackTime before the first turn and after each turn. *)
Definition guard_history (w : Window) (steps : list Step) : list Z :=
  LastTrackTime w :: map (fun r => LastTrackTime (window_after r)) (run w steps).

(** The number of foreign calls in a trace, and those made to [h] with the
    arguments of the "Contact" event. *)
Definition is_call (e : Effect) : bool :=
  match e with ECall _ _ => true | _ => false end.

Definition count_calls (tr : list Effect) : nat :=
  List.length (filter is_call tr).

Definition is_console (e : Effect) : bool :=
  match e with EConsole _ _ => true | _ => false end.

Definition is_timer (e : Effect) : bool :=
  match e with ESetTimeout _ _ => true | _ => false end.

(** The arguments of a dispatch of the "Contact" event. *)
Definition contact_args (value currency : jsstring) : list JsValue :=
  [VString (lit "track"); VString (lit "Contact");
   VObject [("value"%string, VString value);
            ("currency"%string, VString currency)]].

(** The three console lines of the tracker. *)
Definition prevented_line (elapsed : Z) : Effect :=
  EConsole LWarn
    [VString (lit "FB Pixel: " ++ dquote ++ lit "Contact" ++ dquote
              ++ lit " event PREVENTED (double-fire guard). Elapsed: "
              ++ Z_toString elapsed ++ lit "ms")].

Definition track_line (value currency : jsstring) : Effect :=
  EConsole LLog
    [VString (lit "FB Pixel: Manual TRACK " ++ dquote ++ lit "Contact" ++ dquote
              ++ lit " | Value: " ++ value ++ lit " | Currency: " ++ currency)].

Definition not_found_line : Effect :=
  EConsole LError
    [VString (lit "FB Pixel: fbq function not found on window! Ensure Pixel script is in index.html and not blocked.")].

(** The two console lines of the phone-call handler and its timer. *)
Definition triggered_line (phoneNumber : jsstring) : Effect :=
  EConsole LLog
    [VString (lit "FB Pixel: handlePhoneCall triggered for " ++ phoneNumber)].

Definition redirect_line (dialable : jsstring) : Effect :=
  EConsole LLog
    [VString (lit "FB Pixel: Redirecting to tel:" ++ dialable
              ++ lit " shortly...")].

Definition navigation_timer (dialable : jsstring) : Effect :=
  ESetTimeout (AssignLocationHref (lit "tel:" ++ dialable)) 100.

(** The block of [handlePhoneCall] guarded by [if (e)], on its own. *)
Definition event_block (e : JsValue) : M unit :=
  if ToBoolean e then
    pd <- get_prop e "preventDefault" ;;
    (if typeof_is_function pd then call pd [] else ret tt) ;;
    sp <- get_prop e "stopPropagation" ;;
    (if typeof_is_function sp then call sp [] else ret tt)
  else ret tt.

(** In the words of the specification: the capability [p] of the event is
    invoked when it is present, that is when the event has a function
    there. *)
Definition invoke_if_present (e : JsValue) (p : string) : list Effect :=
  match e with
  | VObject props =>
    match lookup_prop p props with
    | VFunction f => [ECall f []]
    | _ => []
    end
  | _ => []
  end.

(** In the words of the specification: what the handler does with the
    event, if one is supplied. *)
Definition suppress_event (e_arg : option JsValue) : list Effect :=
  match e_arg with
  | Some e =>
    if ToBoolean e
    then invoke_if_present e "preventDefault"
         ++ invoke_if_present e "stopPropagation"
    else []
  | None => []
  end.

(** In the words of the specification: the dialable string is the phone
    number without its whitespace and without the characters [-], [(]
    and [)]. *)
Definition is_separator (c : N) : bool :=
  (is_js_space c || (c =? 45) || (c =? 40) || (c =? 41))%N.

Definition dialable_string (phoneNumber : jsstring) : jsstring :=
  filter (fun c => negb (is_separator c)) phoneNumber.

(** The five console lines of the status check. *)
Definition status_lines (w : Window) : list Effect :=
  [EConsole LLog [VString (lit "--- Pixel Status Check ---")];
   EConsole LLog [VString (lit "fbq available:");
                  VBool (typeof_is_function (fbq w))];
   EConsole LLog [VString (lit "Last track time:");
                  VString (Date_toLocaleTimeString (LastTrackTime w))];
   EConsole LLog [VString (lit "Global guard:");
                  match _lastContactTrackTime w with
                  | Some t => VInt t
                  | None => VUndefined
                  end];
   EConsole LLog [VString (lit "--------------------------")]].

(** Times each at least 1000 ms after the one before, the first one after
    [prev]. *)
Fixpoint spaced_from (prev : Z) (times : list Z) : Prop :=
  match times with
  | [] => True
  | t :: rest => 1000 <= t - prev /\ spaced_from t rest
  end.

(** Consecutive times at least 1000 ms apart. *)
Definition consecutive_spaced (times : list Z) : Prop :=
  match times with
  | [] => True
  | t :: rest => spaced_from t rest
  end.

Definition is_track_step (st : Step) : bool :=
  match op st with
  | OpTrack _ _ => true
  | _ => false
  end.

Definition hook_callable (st : Step) : bool := typeof_is_function (hook st).

(** The number of dispatches of each turn. *)
Definition dispatch_counts (rs : list (Result unit)) : list nat :=
  map (fun r => count_calls (effects r)) rs.

(** The state with the guard set to [t] and the rest as in [w]. *)
Definition with_guard (t : Z) (w : Window) : Window :=
  mkWindow (Some t) (fbq w) (location_href w).

(** Whether every foreign call of a trace returned. *)
Definition call_returned (e : Effect) : bool :=
  match e with
  | ECall f args =>
    match foreign_throws f args with
    | None => true
    | Some _ => false
    end
  | _ => true
  end.

Definition calls_return (tr : list Effect) : bool := forallb call_returned tr.

(** The two effects of the dispatch path of the tracker. *)
Definition dispatch_trace (h : FunId) (value currency : jsstring)
  : list Effect :=
  [track_line value currency; ECall h (contact_args value currency)].

(** The tracker takes exactly one of its paths: the debounce guard; the
    dispatch, after which the hook returns or throws; the missing hook. *)
Inductive TrackPath (value : option number) (currency : option jsstring)
    (now : Z) (w : Window) : Result unit -> Prop :=
| PathSuppressed :
    now - LastTrackTime w < TRACK_DEBOUNCE_MS ->
    TrackPath value currency now w
      (mkResult (Normal tt) w [prevented_line (now - LastTrackTime w)])
| PathDispatched h :
    TRACK_DEBOUNCE_MS <= now - LastTrackTime w ->
    fbq w = VFunction h ->
    foreign_throws h (contact_args
                        (toFixed (or_default value default_value) 2)
                        (or_default currency default_currency)) = None ->
    TrackPath value currency now w
      (mkResult (Normal tt) (with_guard now w)
         (dispatch_trace h (toFixed (or_default value default_value) 2)
                         (or_default currency default_currency)))
| PathHookThrew h v :
    TRACK_DEBOUNCE_MS <= now - LastTrackTime w ->
    fbq w = VFunction h ->
    foreign_throws h (contact_args
                        (toFixed (or_default value default_value) 2)
                        (or_default currency default_currency)) = Some v ->
    TrackPath value currency now w
      (mkResult (Throw (Thrown v)) w
         (dispatch_trace h (toFixed (or_default value default_value) 2)
                         (or_default currency default_currency)))
| PathHookMissing :
    TRACK_DEBOUNCE_MS <= now - LastTrackTime w ->
    typeof_is_function (fbq w) = false ->
    TrackPath value currency now w (mkResult (Normal tt) w [not_found_line]).

(** The event block of the handler runs through, or stops at the first
    capability that throws. *)
Inductive EventPath (e_arg : option JsValue) (w : Window)
  : Result unit -> Prop :=
| EventDone :
    calls_return (suppress_event e_arg) = true ->
    EventPath e_arg w (mkResult (Normal tt) w (suppress_event e_arg))
| EventThrew before f after v :
    suppress_event e_arg = before ++ ECall f [] :: after ->
    calls_return before = true ->
    foreign_throws f [] = Some v ->
    EventPath e_arg w (mkResult (Throw (Thrown v)) w (before ++ [ECall f []])).

(** The handler stops at a capability of the event that throws, or at the
    hook that throws, or runs through to the timer. *)
Inductive PhonePath (phoneNumber : jsstring) (e_arg : option JsValue)
    (now : Z) (w : Window) : Result unit -> Prop :=
| PhoneEventThrew before f after v :
    suppress_event e_arg = before ++ ECall f [] :: after ->
    calls_return before = true ->
    foreign_throws f [] = Some v ->
    PhonePath phoneNumber e_arg now w
      (mkResult (Throw (Thrown v)) w
         ([triggered_line phoneNumber] ++ before ++ [ECall f []]))
| PhoneHookThrew h v :
    calls_return (suppress_event e_arg) = true ->
    TRACK_DEBOUNCE_MS <= now - LastTrackTime w ->
    fbq w = VFunction h ->
    foreign_throws h (contact_args (lit "1.00") (lit "USD")) = Some v ->
    PhonePath phoneNumber e_arg now w
      (mkResult (Throw (Thrown v)) w
         ([triggered_line phoneNumber] ++ suppress_event e_arg
          ++ dispatch_trace h (lit "1.00") (lit "USD")))
| PhoneCompleted :
    calls_return (suppress_event e_arg) = true ->
    completion (trackContactEvent None None now w) = Normal tt ->
    PhonePath phoneNumber e_arg now w
      (mkResult (Normal tt)
         (window_after (trackContactEvent None None now w))
         ([triggered_line phoneNumber] ++ suppress_event e_arg
          ++ effects (trackContactEvent None None now w)
          ++ [redirect_line (cleanNumber phoneNumber);
              navigation_timer (cleanNumber phoneNumber)])).

(** What one operation can do to the stored guard: nothing, or, on a
    dispatch, set it to the clock reading. *)
Inductive GuardChange (now : Z) (w : Window) (r : Result unit) : Prop :=
| GuardKept :
    _lastContactTrackTime (window_after r) = _lastContactTrackTime w ->
    GuardChange now w r
| GuardStamped h value currency :
    fbq w = VFunction h ->
    TRACK_DEBOUNCE_MS <= now - LastTrackTime w ->
    In (ECall h (contact_args value currency)) (effects r) ->
    _lastContactTrackTime (window_after r) = Some now ->
    GuardChange now w r.

(** ** Dispatches and timers along a run *)

Fixpoint jsstring_eqb (a b : jsstring) : bool :=
  match a, b with
  | [], [] => true
  | x :: a', y :: b' => (x =? y)%N && jsstring_eqb a' b'
  | _, _ => false
  end.

(** A call with the arguments the tracker gives the hook: "track",
    "Contact" and one object. *)
Definition is_contact_dispatch (e : Effect) : bool :=
  match e with
  | ECall _ [VString action; VString name; VObject _] =>
    jsstring_eqb action (lit "track") && jsstring_eqb name (lit "Contact")
  | _ => false
  end.

Definition dispatched (r : Result unit) : bool :=
  existsb is_contact_dispatch (effects r).

(** The clock readings of the turns of a run that dispatched, in order. *)
Fixpoint dispatch_times (w : Window) (steps : list Step) : list Z :=
  match steps with
  | [] => []
  | st :: rest =>
    let r := run_step w st in
    (if dispatched r then [at_time st] else [])
    ++ dispatch_times (window_after r) rest
  end.

Definition count_timers (tr : list Effect) : nat :=
  List.length (filter is_timer tr).

Definition is_phone_step (st : Step) : bool :=
  match op st with
  | OpPhone _ _ => true
  | _ => false
  end.

Definition is_timer_op (o : Op) : bool :=
  match o with
  | OpTimer _ => true
  | _ => false
  end.

(** The whole trace of a run. *)
Definition run_trace (w : Window) (steps : list Step) : list Effect :=
  List.concat (map (fun r => effects r) (run w steps)).

(** The stored guard is unset or a clock reading of at least 1000. *)
Definition guard_unset_or_stamped (w : Window) : Prop :=
  match _lastContactTrackTime w with
  | None => True
  | Some t => 1000 <= t
  end.

(** What a turn does about the event: it makes no dispatch and keeps the
    guard, or it dispatches (hook a function, debounce passed) and stamps
    the guard with the clock reading. *)
Inductive TurnOutcome (now : Z) (w : Window) (r : Result unit) : Prop :=
| TurnQuiet :
    dispatched r = false ->
    _lastContactTrackTime (window_after r) = _lastContactTrackTime w ->
    TurnOutcome now w r
| TurnDispatch h :
    dispatched r = true ->
    fbq w = VFunction h ->
    TRACK_DEBOUNCE_MS <= now - LastTrackTime w ->
    _lastContactTrackTime (window_after r) = Some now ->
    TurnOutcome now w r.

End Program.

(** A host for closed examples: its [Number_toString] is only reached by
    toFixed above 10^21 and its time format only by the status check. *)
Definition example_host : Host :=
  {| Number_toString := fun _ => lit "1e+21";
     Date_toLocaleTimeString := fun _ => lit "12:00:00 AM";
     foreign_throws := fun _ _ => None |}.

(** The same host on a page where the function 9 throws whenever it is
    called (a broken stub of the pixel script, or a failing listener). *)
Definition failing_host : Host :=
  {| Number_toString := fun _ => lit "1e+21";
     Date_toLocaleTimeString := fun _ => lit "12:00:00 AM";
     foreign_throws := fun f _ =>
       if (f =? 9)%N then Some (VString (lit "pixel stub failed")) else None |}.

(** 2.5 as a binary64 datum. *)
Definition two_and_a_half : number := S754_finite false 5629499534213120 (-51).

Definition example_href : jsstring := lit "https://example.test/".

(** A page whose pixel script has loaded, before any tracking. *)
Definition page_with_hook : Window := mkWindow None (VFunction 1%N) example_href.

(** The same page one dispatch later, made at time 1700000000000. *)
Definition page_tracked : Window :=
  mkWindow (Some 1700000000000) (VFunction 1%N) example_href.

(** A page whose hook is the function that throws. *)
Definition page_with_failing_hook : Window :=
  mkWindow None (VFunction 9%N) example_href.

(** A click event whose [preventDefault] is the function that throws. *)
Definition failing_event : JsValue :=
  VObject [("preventDefault"%string, VFunction 9%N);
           ("stopPropagation"%string, VFunction 3%N)].

(** A page whose pixel script is blocked. *)
Definition page_without_hook : Window := initial_window example_href.

(** A click event with both capabilities, and one with neither. *)
Definition click_event : JsValue :=
  VObject [("preventDefault"%string, VFunction 2%N);
           ("stopPropagation"%string, VFunction 3%N);
           ("type"%string, VString (lit "click"))].


Definition example_phone : jsstring := lit "+1 (833) 549-4113".

(** Two calls of the tracker 2000 ms apart on a page whose pixel script is
    blocked. *)
Definition calls_without_hook : list Step :=
  [mkStep 1700000000000 VUndefined (OpTrack None None);
   mkStep 1700000002000 VUndefined (OpTrack None None)].

(** One call of the tracker, hook present, 400 ms after the stored guard. *)
Definition call_inside_window : list Step :=
  [mkStep 1700000000400 (VFunction 1%N) (OpTrack None None)].

(** Three calls of the tracker exactly 1000 ms apart, hook present. *)
Definition calls_with_hook : list Step :=
  [mkStep 1700000000000 (VFunction 1%N) (OpTrack None None);
   mkStep 1700000001000 (VFunction 1%N) (OpTrack (Some two_and_a_half)
                                                 (Some (lit "EUR")));
   mkStep 1700000002000 (VFunction 1%N) (OpTrack None None)].

(** A session mixing the operations: a call while the script is blocked, a
    phone call once it has loaded, a second one 300 ms later, a status
    check, the timer firing. *)
Definition mixed_session : list Step :=
  [mkStep 1700000000000 VUndefined (OpTrack None None);
   mkStep 1700000000500 (VFunction 1%N) (OpPhone example_phone (Some click_event));
   mkStep 1700000000800 (VFunction 1%N) (OpPhone example_phone None);
   mkStep 1700000000900 (VFunction 1%N) OpCheck;
   mkStep 1700000000900 (VFunction 1%N)
          (OpTimer (AssignLocationHref (lit "tel:+18335494113")))].

(** A double click: two phone calls 150 ms apart. *)
Definition double_click : list Step :=
  [mkStep 1700000000000 (VFunction 1%N) (OpPhone example_phone (Some click_event));
   mkStep 1700000000150 (VFunction 1%N) (OpPhone example_phone (Some click_event))].

(** -0.001 as a binary64 datum. *)
Definition minus_one_thousandth : number :=
  S754_finite true 4611686018427388 (-62).

(* ===================================================================== *)
(** * Properties *)
(* ===================================================================== *)

Section Properties.
Context `{Host}.

Lemma LastTrackTime_with_guard t w : LastTrackTime (with_guard t w) = t.
Proof.
  unfold LastTrackTime, with_guard; cbn.
  destruct (Z.eqb_spec t 0) as [-> | _]; reflexivity.
Qed.

Lemma LastTrackTime_install_hook h w :
  LastTrackTime (install_hook h w) = LastTrackTime w.
Proof. reflexivity. Qed.

(** *** The three paths of [trackContactEvent] *)

Lemma track_suppressed value currency now w :
  now - LastTrackTime w < TRACK_DEBOUNCE_MS ->
  trackContactEvent value currency now w
  = mkResult (Normal tt) w [prevented_line (now - LastTrackTime w)].
Proof.
  intros Hlt. unfold trackContactEvent, getGlobalLastTrackTime, bind; cbn.
  destruct (Z.ltb_spec (now - LastTrackTime w) TRACK_DEBOUNCE_MS) as [_ | Hge];
    [reflexivity | lia].
Qed.

Lemma result_eta {A} (r : Result A) :
  r = mkResult (completion r) (window_after r) (effects r).
Proof. destruct r; reflexivity. Qed.

Lemma bind_run {A B} (c : M A) (k : A -> M B) now w a w' tr :
  c now w = mkResult (Normal a) w' tr ->
  bind c k now w
  = mkResult (completion (k a now w')) (window_after (k a now w'))
             (tr ++ effects (k a now w')).
Proof. intros Hc. unfold bind. rewrite Hc. reflexivity. Qed.

Lemma bind_throw {A B} (c : M A) (k : A -> M B) now w err w' tr :
  c now w = mkResult (Throw err) w' tr ->
  bind c k now w = mkResult (Throw err) w' tr.
Proof. intros Hc. unfold bind. rewrite Hc. reflexivity. Qed.

Lemma call_returns f args now w :
  foreign_throws f args = None ->
  call (VFunction f) args now w = mkResult (Normal tt) w [ECall f args].
Proof.
  intros Hret. unfold call, bind, emit.
  cbn [completion window_after effects]. rewrite Hret. reflexivity.
Qed.

Lemma call_throws f args v now w :
  foreign_throws f args = Some v ->
  call (VFunction f) args now w = mkResult (Throw (Thrown v)) w [ECall f args].
Proof.
  intros Hthrow. unfold call, bind, emit.
  cbn [completion window_after effects]. rewrite Hthrow. reflexivity.
Qed.

(** The tracker once the debounce check has passed and the hook is there:
    the log line, then the call, then (if the call returns) the stamp. *)
Lemma track_after_checks value currency now w h :
  TRACK_DEBOUNCE_MS <= now - LastTrackTime w ->
  fbq w = VFunction h ->
  trackContactEvent value currency now w
  = bind (console_log
            [VString (lit "FB Pixel: Manual TRACK " ++ dquote ++ lit "Contact"
                      ++ dquote ++ lit " | Value: "
                      ++ toFixed (or_default value default_value) 2
                      ++ lit " | Currency: "
                      ++ or_default currency default_currency)])
         (fun _ =>
            bind (call (VFunction h)
                       (contact_args
                          (toFixed (or_default value default_value) 2)
                          (or_default currency default_currency)))
                 (fun _ => setGlobalLastTrackTime now)) now w.
Proof.
  intros Hge Hh. unfold trackContactEvent.
  rewrite (bind_run _ _ _ _ now w []) by reflexivity.
  rewrite (bind_run _ _ _ _ (LastTrackTime w) w []) by reflexivity.
  destruct (Z.ltb_spec (now - LastTrackTime w) TRACK_DEBOUNCE_MS) as [Hlt | _];
    [lia |].
  rewrite (bind_run _ _ _ _ w w []) by reflexivity.
  rewrite Hh. cbn [typeof_is_function completion window_after effects app].
  symmetry. apply result_eta.
Qed.

Lemma track_dispatched value currency now w h :
  TRACK_DEBOUNCE_MS <= now - LastTrackTime w ->
  fbq w = VFunction h ->
  foreign_throws h (contact_args
                      (toFixed (or_default value default_value) 2)
                      (or_default currency default_currency)) = None ->
  trackContactEvent value currency now w
  = mkResult (Normal tt) (with_guard now w)
      (dispatch_trace h (toFixed (or_default value default_value) 2)
                      (or_default currency default_currency)).
Proof.
  intros Hge Hh Hret.
  rewrite (track_after_checks _ _ _ _ h) by assumption.
  rewrite (bind_run _ _ _ _ tt w
             [track_line (toFixed (or_default value default_value) 2)
                         (or_default currency default_currency)])
    by reflexivity.
  rewrite (bind_run _ _ _ _ tt w _ (call_returns _ _ _ _ Hret)).
  reflexivity.
Qed.

Lemma track_hook_threw value currency now w h v :
  TRACK_DEBOUNCE_MS <= now - LastTrackTime w ->
  fbq w = VFunction h ->
  foreign_throws h (contact_args
                      (toFixed (or_default value default_value) 2)
                      (or_default currency default_currency)) = Some v ->
  trackContactEvent value currency now w
  = mkResult (Throw (Thrown v)) w
      (dispatch_trace h (toFixed (or_default value default_value) 2)
                      (or_default currency default_currency)).
Proof.
  intros Hge Hh Hthrow.
  rewrite (track_after_checks _ _ _ _ h) by assumption.
  rewrite (bind_run _ _ _ _ tt w
             [track_line (toFixed (or_default value default_value) 2)
                         (or_default currency default_currency)])
    by reflexivity.
  rewrite (bind_throw _ _ _ _ _ w _ (call_throws _ _ _ _ _ Hthrow)).
  reflexivity.
Qed.

Lemma track_hook_missing value currency now w :
  TRACK_DEBOUNCE_MS <= now - LastTrackTime w ->
  typeof_is_function (fbq w) = false ->
  trackContactEvent value currency now w
  = mkResult (Normal tt) w [not_found_line].
Proof.
  intros Hge Hh. unfold trackContactEvent, getGlobalLastTrackTime, bind; cbn.
  destruct (Z.ltb_spec (now - LastTrackTime w) TRACK_DEBOUNCE_MS) as [Hlt | _];
    [lia |].
  cbn. rewrite Hh. reflexivity.
Qed.

Lemma typeof_is_function_inv v :
  typeof_is_function v = true -> exists h, v = VFunction h.
Proof. destruct v; cbn; try discriminate. intros _. eexists; reflexivity. Qed.

Lemma track_paths value currency now w :
  TrackPath value currency now w (trackContactEvent value currency now w).
Proof.
  destruct (Z.lt_ge_cases (now - LastTrackTime w) TRACK_DEBOUNCE_MS) as [Hlt | Hge].
  - rewrite track_suppressed by assumption. now constructor.
  - destruct (typeof_is_function (fbq w)) eqn:Hf.
    + destruct (typeof_is_function_inv _ Hf) as [h Hh].
      destruct (foreign_throws h
                  (contact_args (toFixed (or_default value default_value) 2)
                                (or_default currency default_currency)))
        as [v |] eqn:Hcall.
      * rewrite (track_hook_threw _ _ _ _ h v) by assumption.
        now apply PathHookThrew.
      * rewrite (track_dispatched _ _ _ _ h) by assumption.
        now apply PathDispatched.
    + rewrite track_hook_missing by assumption. now constructor.
Qed.

(** On the dispatch path the trace is the same whether the hook returns or
    throws: the call has been made. *)
Lemma track_dispatch_effects value currency now w h :
  TRACK_DEBOUNCE_MS <= now - LastTrackTime w ->
  fbq w = VFunction h ->
  effects (trackContactEvent value currency now w)
  = dispatch_trace h (toFixed (or_default value default_value) 2)
                   (or_default currency default_currency).
Proof.
  intros Hge Hh.
  destruct (track_paths value currency now w)
    as [Hlt | h' _ Hh' _ | h' v _ Hh' _ | _ Hf].
  - unfold TRACK_DEBOUNCE_MS in *. lia.
  - rewrite Hh in Hh'. injection Hh' as <-. reflexivity.
  - rewrite Hh in Hh'. injection Hh' as <-. reflexivity.
  - rewrite Hh in Hf. discriminate Hf.
Qed.

Lemma calls_return_app a b :
  calls_return (a ++ b) = calls_return a && calls_return b.
Proof. apply forallb_app. Qed.

Lemma calls_return_thrown tr f args v :
  In (ECall f args) tr ->
  foreign_throws f args = Some v ->
  calls_return tr = false.
Proof.
  intros Hin Hthrow.
  destruct (calls_return tr) eqn:Hall; [| reflexivity].
  unfold calls_return in Hall.
  pose proof (proj1 (forallb_forall _ _) Hall _ Hin) as Hc.
  cbn [call_returned] in Hc. rewrite Hthrow in Hc. discriminate Hc.
Qed.

(** The tracker completes normally exactly when the call it made, if any,
    returned. *)
Lemma track_normal_iff value currency now w :
  completion (trackContactEvent value currency now w) = Normal tt
  <-> calls_return (effects (trackContactEvent value currency now w)) = true.
Proof.
  destruct (track_paths value currency now w)
    as [Hlt | h _ _ Hret | h v _ _ Hthrow | _ _]; cbn [completion effects].
  - split; reflexivity.
  - split; [| reflexivity]. intros _.
    unfold calls_return, dispatch_trace, track_line.
    cbn [forallb call_returned andb]. rewrite Hret. reflexivity.
  - split; [discriminate |]. intros Hall.
    assert (Hin : In (ECall h (contact_args
                                 (toFixed (or_default value default_value) 2)
                                 (or_default currency default_currency)))
                     (dispatch_trace h
                        (toFixed (or_default value default_value) 2)
                        (or_default currency default_currency)))
      by (right; left; reflexivity).
    rewrite (calls_return_thrown _ _ _ _ Hin Hthrow) in Hall.
    discriminate Hall.
  - split; reflexivity.
Qed.

(** *** The event part of [handlePhoneCall] *)

(** What the guards of the module keep away: calling something that is not
    a function, and reading a property of null or undefined, both throw. *)
Lemma call_of_non_function_throws v args now w :
  typeof_is_function v = false ->
  completion (call v args now w) = Throw (TypeError "not a function").
Proof. destruct v; cbn; intros Hf; try reflexivity; discriminate. Qed.

Lemma get_prop_of_falsy_object_throws v p now w :
  v = VNull \/ v = VUndefined ->
  completion (get_prop v p now w) = Throw (TypeError "cannot read properties").
Proof. intros [-> | ->]; reflexivity. Qed.

Lemma track_result value currency now w c :
  completion (trackContactEvent value currency now w) = c ->
  trackContactEvent value currency now w
  = mkResult c (window_after (trackContactEvent value currency now w))
             (effects (trackContactEvent value currency now w)).
Proof. intros <-. apply result_eta. Qed.

Lemma track_throw_inv value currency now w err :
  completion (trackContactEvent value currency now w) = Throw err ->
  exists h v,
    TRACK_DEBOUNCE_MS <= now - LastTrackTime w /\
    fbq w = VFunction h /\
    foreign_throws h (contact_args
                        (toFixed (or_default value default_value) 2)
                        (or_default currency default_currency)) = Some v /\
    err = Thrown v /\
    trackContactEvent value currency now w
    = mkResult (Throw (Thrown v)) w
        (dispatch_trace h (toFixed (or_default value default_value) 2)
                        (or_default currency default_currency)).
Proof.
  destruct (track_paths value currency now w)
    as [Hlt | h Hge Hh Hret | h v Hge Hh Hthrow | Hge Hf];
    cbn [completion]; intros Hc; try discriminate Hc.
  injection Hc as <-. exists h, v. repeat split; assumption.
Qed.

(** One probed capability: it is called when it is a function, and the
    block goes on when the call returns. *)
Lemma guarded_call_paths props p now w :
  let c := (if typeof_is_function (lookup_prop p props)
            then call (lookup_prop p props) [] else ret tt) now w in
  (c = mkResult (Normal tt) w (invoke_if_present (VObject props) p) /\
   calls_return (invoke_if_present (VObject props) p) = true)
  \/ (exists f v,
         invoke_if_present (VObject props) p = [ECall f []] /\
         foreign_throws f [] = Some v /\
         c = mkResult (Throw (Thrown v)) w [ECall f []]).
Proof.
  unfold invoke_if_present.
  destruct (lookup_prop p props) as [| | b | x | n | s | props' | f];
    cbn [typeof_is_function]; try (left; split; reflexivity).
  destruct (foreign_throws f []) as [v |] eqn:Hcall.
  - right. exists f, v. split; [reflexivity |]. split; [exact Hcall |].
    apply call_throws. exact Hcall.
  - left. split; [apply call_returns; exact Hcall |].
    unfold calls_return. cbn [forallb call_returned]. rewrite Hcall.
    reflexivity.
Qed.

Lemma event_block_paths e_arg now w :
  EventPath e_arg w (event_block (or_default e_arg VNull) now w).
Proof.
  destruct e_arg as [e |]; [| now apply EventDone].
  cbn [or_default].
  assert (Hquiet : (forall props, e <> VObject props) ->
                   event_block e now w
                   = mkResult (Normal tt) w (suppress_event (Some e))
                   /\ suppress_event (Some e) = []).
  { intros Hno. unfold event_block, suppress_event.
    destruct e as [| | b | x | n | s | props | f]; cbn [ToBoolean];
      try (split; reflexivity).
    - destruct b; split; reflexivity.
    - destruct x as [sg | sg | | sg m ex]; split; reflexivity.
    - destruct (negb (n =? 0)); split; reflexivity.
    - destruct s; split; reflexivity.
    - now elim (Hno props). }
  destruct e as [| | b | x | n | s | props | f];
    try (destruct Hquiet as [-> Hnil]; [discriminate |];
         apply EventDone; rewrite Hnil; reflexivity).
  clear Hquiet. unfold event_block. cbn [ToBoolean].
  {
    rewrite (bind_run _ _ _ _ (lookup_prop "preventDefault" props) w [])
      by reflexivity.
    destruct (guarded_call_paths props "preventDefault" now w)
      as [[Hpd Hpdret] | (f1 & v1 & Hpd_tr & Hpd_throw & Hpd)].
    + rewrite (bind_run _ _ _ _ tt w _ Hpd).
      rewrite (bind_run _ _ _ _ (lookup_prop "stopPropagation" props) w [])
        by reflexivity.
      destruct (guarded_call_paths props "stopPropagation" now w)
        as [[Hsp Hspret] | (f2 & v2 & Hsp_tr & Hsp_throw & Hsp)].
      * rewrite Hsp. cbn [completion window_after effects app].
        apply EventDone. unfold suppress_event. cbn [ToBoolean].
        rewrite calls_return_app, Hpdret, Hspret. reflexivity.
      * rewrite Hsp. cbn [completion window_after effects app].
        apply (EventThrew _ _ _ f2 [] v2);
          [| exact Hpdret | exact Hsp_throw].
        unfold suppress_event. cbn [ToBoolean]. rewrite Hsp_tr. reflexivity.
    + rewrite (bind_throw _ _ _ _ _ w _ Hpd).
      cbn [completion window_after effects app].
      apply (EventThrew _ _ [] f1
               (invoke_if_present (VObject props) "stopPropagation") v1);
        [| reflexivity | exact Hpd_throw].
      unfold suppress_event. cbn [ToBoolean]. rewrite Hpd_tr. reflexivity.
  }
Qed.

(** The handler, path by path: the event part, then the tracker on the same
    state and clock reading, then the redirect line and the timer; a
    capability or a hook that throws ends it on the spot. *)
Lemma phone_paths phoneNumber e_arg now w :
  PhonePath phoneNumber e_arg now w (handlePhoneCall phoneNumber e_arg now w).
Proof.
  unfold handlePhoneCall.
  change (if ToBoolean (or_default e_arg VNull) then _ else ret tt)
    with (event_block (or_default e_arg VNull)).
  rewrite (bind_run _ _ _ _ tt w [triggered_line phoneNumber]) by reflexivity.
  pose proof (event_block_paths e_arg now w) as Hev.
  inversion Hev as [Hret Heq | before f after v Hsplit Hbefore Hthrow Heq].
  - rewrite (bind_run _ _ _ _ tt w _ (eq_sym Heq)).
    destruct (completion (trackContactEvent None None now w)) as [[] | err]
      eqn:Hc.
    + rewrite (bind_run _ _ _ _ tt _ _ (track_result _ _ _ _ _ Hc)).
      unfold bind, console_log, setTimeout, emit.
      cbn [completion window_after effects app].
      exact (PhoneCompleted phoneNumber e_arg now w Hret Hc).
    + destruct (track_throw_inv _ _ _ _ _ Hc)
        as (h & v & Hge & Hh & Hcall & -> & Ht).
      rewrite (bind_throw _ _ _ _ _ _ _ Ht).
      cbn [completion window_after effects app].
      exact (PhoneHookThrew phoneNumber e_arg now w h v Hret Hge Hh Hcall).
  - rewrite (bind_throw _ _ _ _ _ w _ (eq_sym Heq)).
    cbn [completion window_after effects].
    exact (PhoneEventThrew phoneNumber e_arg now w before f after v
             Hsplit Hbefore Hthrow).
Qed.

Lemma calls_return_false_app_l a b :
  calls_return a = false -> calls_return (a ++ b) = false.
Proof. intros Ha. rewrite calls_return_app, Ha. reflexivity. Qed.

(** The handler runs through exactly when the capabilities it called and
    the hook, if called, returned, and exactly then it completes
    normally. *)
Lemma handlePhoneCall_completed phoneNumber e_arg now w :
  calls_return (suppress_event e_arg) = true ->
  completion (trackContactEvent None None now w) = Normal tt ->
  handlePhoneCall phoneNumber e_arg now w
  = mkResult (Normal tt)
      (window_after (trackContactEvent None None now w))
      ([triggered_line phoneNumber] ++ suppress_event e_arg
       ++ effects (trackContactEvent None None now w)
       ++ [redirect_line (cleanNumber phoneNumber);
           navigation_timer (cleanNumber phoneNumber)]).
Proof.
  intros Hev Htrack.
  destruct (phone_paths phoneNumber e_arg now w)
    as [before f after v Hsplit Hbefore Hthrow
       | h v Hret Hge Hh Hcall | Hret Hnormal].
  - exfalso. rewrite Hsplit in Hev.
    rewrite (calls_return_thrown _ f [] v) in Hev;
      [discriminate Hev | | exact Hthrow].
    apply in_or_app. right. now left.
  - exfalso. rewrite (track_hook_threw _ _ _ _ h v) in Htrack;
      [discriminate Htrack | exact Hge | exact Hh | exact Hcall].
  - reflexivity.
Qed.

(** *** [toFixed(2)] writes the nearest hundredth with two decimals *)

Lemma read_from_cons acc ch s :
  read_from acc (lit (String ch s))
  = read_from (10 * acc + (N_of_ascii ch - 48))%N (lit s).
Proof. reflexivity. Qed.

Lemma of_uint_acc_read d acc :
  Npos (Pos.of_uint_acc d acc)
  = read_from (Npos acc) (lit (NilEmpty.string_of_uint d)).
Proof.
  revert acc. induction d; intros acc;
    cbn [Pos.of_uint_acc NilEmpty.string_of_uint]; try reflexivity;
    rewrite read_from_cons, IHd; f_equal;
    try (cbn [N_of_ascii N_of_digits]; lia).
Qed.

Lemma of_uint_read d :
  Pos.of_uint d = read_from 0 (lit (NilEmpty.string_of_uint d)).
Proof.
  induction d; cbn [Pos.of_uint NilEmpty.string_of_uint]; try reflexivity;
    rewrite read_from_cons; try (rewrite of_uint_acc_read; reflexivity).
  exact IHd.
Qed.

Lemma to_uint_not_nil n : N.to_uint n <> Nil.
Proof.
  destruct n as [| p]; cbn; [discriminate |].
  apply DecimalPos.Unsigned.to_uint_nonnil.
Qed.

Lemma digits_value_digits_of_N n : digits_value (digits_of_N n) = n.
Proof.
  unfold digits_value, digits_of_N.
  rewrite <- (DecimalN.Unsigned.of_to n) at 2.
  unfold N.of_uint. rewrite of_uint_read.
  pose proof (to_uint_not_nil n) as Hnil.
  destruct (N.to_uint n); [contradiction | reflexivity ..].
Qed.

Lemma digits_value_zeros k s : digits_value (zeros k ++ s) = digits_value s.
Proof.
  unfold digits_value, read_from, zeros. rewrite fold_left_app.
  replace (fold_left (fun acc c => 10 * acc + (c - 48))%N (repeat 48%N k) 0%N)
    with 0%N; [reflexivity |].
  induction k as [| k IH]; [reflexivity | exact IH].
Qed.

Lemma fixed_digits_2 n :
  exists a b,
    fixed_digits 2 n = a ++ lit "." ++ b /\
    List.length b = 2%nat /\
    a <> [] /\
    digits_value (a ++ b) = Z.to_N n.
Proof.
  unfold fixed_digits.
  set (m := digits_of_N (Z.to_N n)).
  set (m' := if (List.length m <=? 2)%nat
             then zeros (2 + 1 - List.length m) ++ m else m).
  assert (Hlen : (3 <= List.length m')%nat).
  { subst m'. destruct (Nat.leb_spec (List.length m) 2) as [Hle | Hgt].
    - rewrite length_app. unfold zeros. rewrite repeat_length. lia.
    - lia. }
  assert (Hval : digits_value m' = Z.to_N n).
  { subst m'. destruct (List.length m <=? 2)%nat.
    - rewrite digits_value_zeros. apply digits_value_digits_of_N.
    - apply digits_value_digits_of_N. }
  exists (firstn (List.length m' - 2) m'), (skipn (List.length m' - 2) m').
  split; [reflexivity |]. split; [rewrite length_skipn; lia |]. split.
  - intros Hnil. apply (f_equal (@List.length N)) in Hnil.
    rewrite length_firstn in Hnil. cbn in Hnil. lia.
  - rewrite firstn_skipn. exact Hval.
Qed.

(** The integer chosen by toFixed is the nearest to the scaled value, the
    upper one on a tie: with [k] the number of binary places of the datum,
    [n - 1/2 <= m * 2^e * 10^f < n + 1/2], all multiplied by [2 * 2^k]. *)
Lemma nearest_scaled_nearest f m e :
  let k := Z.max 0 (- e) in
  let n := nearest_scaled f m e in
  0 <= n /\
  (2 * n - 1) * 2 ^ k <= 2 * (Zpos m * 2 ^ (e + k)) * 10 ^ Z.of_nat f
  /\ 2 * (Zpos m * 2 ^ (e + k)) * 10 ^ Z.of_nat f < (2 * n + 1) * 2 ^ k.
Proof.
  intros k n. subst k n. unfold nearest_scaled.
  assert (Hp : 0 < 10 ^ Z.of_nat f) by (apply Z.pow_pos_nonneg; lia).
  destruct (Z.leb_spec 0 e) as [He | He].
  - rewrite Z.max_l by lia. rewrite Z.add_0_r. cbn [Z.pow].
    assert (0 < 2 ^ e) by (apply Z.pow_pos_nonneg; lia).
    nia.
  - rewrite Z.max_r by lia. replace (e + - e) with 0 by lia.
    cbn [Z.pow]. rewrite Z.mul_1_r.
    assert (Hk : 0 < 2 ^ (- e)) by (apply Z.pow_pos_nonneg; lia).
    set (K := 2 ^ (- e)) in *. set (P := 10 ^ Z.of_nat f) in *.
    pose proof (Z.div_mod (2 * Zpos m * P + K) (2 * K) ltac:(lia)) as Hdm.
    pose proof (Z.mod_pos_bound (2 * Zpos m * P + K) (2 * K) ltac:(lia)) as Hmb.
    assert (0 <= (2 * Zpos m * P + K) / (2 * K))
      by (apply Z.div_pos; nia).
    nia.
Qed.

(** For a finite Number below 10^21 in magnitude, [toFixed(2)] is the sign,
    then the decimal digits of the nearest number of hundredths with a point
    before the last two. *)
Lemma toFixed_two_decimals s m e :
  at_least_1e21 m e = false ->
  exists a b,
    toFixed (S754_finite s m e) 2
    = (if s then lit "-" else []) ++ a ++ lit "." ++ b /\
    List.length b = 2%nat /\
    a <> [] /\
    Z.of_N (digits_value (a ++ b)) = nearest_scaled 2 m e.
Proof.
  intros Hsmall. unfold toFixed. rewrite Hsmall.
  destruct (fixed_digits_2 (nearest_scaled 2 m e)) as (a & b & Heq & Hb & Ha & Hv).
  exists a, b. rewrite Heq, Hv.
  repeat split; try assumption.
  apply Z2N.id. apply (nearest_scaled_nearest 2 m e).
Qed.

(** C1. Whenever the current time minus LastTrackTime is strictly below
    1000 ms, a call of the tracker completes normally, leaves the whole state
    (LastTrackTime included) as it was, and its only effect is one console
    warning: nothing is sent to the tracking hook. *)
Theorem C1_debounced_call_is_noop :
  forall value currency now w,
    now - LastTrackTime w < 1000 ->
    let r := trackContactEvent value currency now w in
    completion r = Normal tt /\
    window_after r = w /\
    LastTrackTime (window_after r) = LastTrackTime w /\
    effects r = [prevented_line (now - LastTrackTime w)] /\
    count_calls (effects r) = 0%nat.
Proof.
  intros value currency now w Hlt r. subst r.
  rewrite track_suppressed by exact Hlt.
  repeat split.
Qed.

(** C2. When the debounce check passes, [window.fbq] is a function and its
    call returns, the tracker calls it exactly once, with "track", "Contact"
    and the object whose [value] is [value.toFixed(2)] and whose [currency]
    is the given currency (parameters left out take 1.00 and "USD"); after
    the call LastTrackTime is the time read at the start, the rest of the
    state being as before. For a finite value below 10^21 in magnitude the
    [value] string is the sign, then the digits of the nearest number of
    hundredths with a point before the last two. *)
Theorem C2_dispatch_once_and_stamp :
  forall value_arg currency_arg now w h,
    1000 <= now - LastTrackTime w ->
    fbq w = VFunction h ->
    foreign_throws h
      [VString (lit "track"); VString (lit "Contact");
       VObject [("value"%string,
                 VString (toFixed (or_default value_arg default_value) 2));
                ("currency"%string,
                 VString (or_default currency_arg default_currency))]]
    = None ->
    let value := or_default value_arg default_value in
    let currency := or_default currency_arg default_currency in
    let r := trackContactEvent value_arg currency_arg now w in
    completion r = Normal tt /\
    effects r
    = [track_line (toFixed value 2) currency;
       ECall h [VString (lit "track"); VString (lit "Contact");
                VObject [("value"%string, VString (toFixed value 2));
                         ("currency"%string, VString currency)]]] /\
    count_calls (effects r) = 1%nat /\
    LastTrackTime (window_after r) = now /\
    window_after r = mkWindow (Some now) (fbq w) (location_href w) /\
    (forall s m e,
        value = S754_finite s m e ->
        at_least_1e21 m e = false ->
        exists a b,
          toFixed value 2 = (if s then lit "-" else []) ++ a ++ lit "." ++ b /\
          List.length b = 2%nat /\
          a <> [] /\
          Z.of_N (digits_value (a ++ b)) = nearest_scaled 2 m e).
Proof.
  intros value_arg currency_arg now w h Hge Hh Hret value currency r. subst r.
  rewrite (track_dispatched _ _ _ _ h) by assumption.
  cbn [completion effects window_after].
  rewrite LastTrackTime_with_guard.
  repeat split.
  intros s m e -> Hsmall. apply toFixed_two_decimals. exact Hsmall.
Qed.

(** C3. When the debounce check passes and [window.fbq] is not a function,
    the tracker calls nothing, logs one console error and leaves the whole
    state, LastTrackTime included, as it was; hence a later attempt, once the
    hook is there, is dispatched. *)
Theorem C3_missing_hook_leaves_state :
  forall value currency now w,
    1000 <= now - LastTrackTime w ->
    typeof_is_function (fbq w) = false ->
    let r := trackContactEvent value currency now w in
    completion r = Normal tt /\
    effects r = [not_found_line] /\
    count_calls (effects r) = 0%nat /\
    window_after r = w /\
    LastTrackTime (window_after r) = LastTrackTime w /\
    (forall now' h value' currency',
        now <= now' ->
        count_calls
          (effects (trackContactEvent value' currency' now'
                      (install_hook (VFunction h) (window_after r))))
        = 1%nat).
Proof.
  intros value currency now w Hge Hf r. subst r.
  rewrite track_hook_missing by assumption.
  cbn [completion effects window_after].
  repeat split.
  intros now' h value' currency' Hle.
  rewrite (track_dispatch_effects _ _ _ _ h);
    [reflexivity | rewrite LastTrackTime_install_hook; unfold TRACK_DEBOUNCE_MS; lia
    | reflexivity].
Qed.

(** The calls made by the handler all returned exactly when it ran
    through. *)
Lemma handler_calls_return_inv phoneNumber e_arg now w :
  calls_return (effects (handlePhoneCall phoneNumber e_arg now w)) = true ->
  calls_return (suppress_event e_arg) = true /\
  completion (trackContactEvent None None now w) = Normal tt.
Proof.
  destruct (phone_paths phoneNumber e_arg now w)
    as [before f after v Hsplit Hbefore Hthrow
       | h v Hret Hge Hh Hcall | Hret Hnormal];
    cbn [effects]; intros Hall.
  - exfalso. rewrite (calls_return_thrown _ f [] v) in Hall;
      [discriminate Hall | | exact Hthrow].
    rewrite !in_app_iff. right. right. now left.
  - exfalso.
    rewrite (calls_return_thrown _ h (contact_args (lit "1.00") (lit "USD")) v)
      in Hall; [discriminate Hall | | exact Hcall].
    rewrite !in_app_iff. right. right. right. now left.
  - split; assumption.
Qed.

Lemma handlePhoneCall_ran_through phoneNumber e_arg now w :
  calls_return (effects (handlePhoneCall phoneNumber e_arg now w)) = true ->
  handlePhoneCall phoneNumber e_arg now w
  = mkResult (Normal tt)
      (window_after (trackContactEvent None None now w))
      ([triggered_line phoneNumber] ++ suppress_event e_arg
       ++ effects (trackContactEvent None None now w)
       ++ [redirect_line (cleanNumber phoneNumber);
           navigation_timer (cleanNumber phoneNumber)]).
Proof.
  intros Hall. destruct (handler_calls_return_inv _ _ _ _ Hall) as [Hev Ht].
  now apply handlePhoneCall_completed.
Qed.

(** C4. When the calls it makes return, the effects of [handlePhoneCall]
    come in this order: its first console line; the calls of
    [preventDefault] and [stopPropagation] on the supplied event, each when
    present; everything the tracker does when called with its default value
    and currency at the same clock reading; the redirect line; and last the
    timer of 100 ms whose callback assigns [tel:] followed by the dialable
    string to the location of the page. The state is the one the tracker
    leaves. When the tracker dispatches, the dispatch carries "1.00" and
    "USD" and stands before the timer. *)
Theorem C4_effects_in_order :
  forall phoneNumber e_arg now w,
    calls_return (effects (handlePhoneCall phoneNumber e_arg now w)) = true ->
    let r := handlePhoneCall phoneNumber e_arg now w in
    let t := trackContactEvent None None now w in
    effects r
    = [triggered_line phoneNumber]
      ++ suppress_event e_arg
      ++ effects t
      ++ [redirect_line (cleanNumber phoneNumber);
          ESetTimeout (AssignLocationHref (lit "tel:" ++ cleanNumber phoneNumber))
                      100] /\
    window_after r = window_after t /\
    (forall now' w',
        location_href
          (window_after
             (run_callback (AssignLocationHref (lit "tel:" ++ cleanNumber phoneNumber))
                           now' w'))
        = lit "tel:" ++ cleanNumber phoneNumber) /\
    (forall h,
        1000 <= now - LastTrackTime w ->
        fbq w = VFunction h ->
        exists before between,
          effects r
          = before
            ++ ECall h (contact_args (lit "1.00") (lit "USD"))
            :: between
            ++ [navigation_timer (cleanNumber phoneNumber)]).
Proof.
  intros phoneNumber e_arg now w Hall r t. subst r t.
  rewrite handlePhoneCall_ran_through by exact Hall.
  cbn [effects window_after].
  split; [reflexivity |]. split; [reflexivity |]. split; [reflexivity |].
  intros h Hge Hh.
  rewrite (track_dispatch_effects _ _ _ _ h) by assumption.
  cbn [or_default].
  exists ([triggered_line phoneNumber] ++ suppress_event e_arg
          ++ [track_line (lit "1.00") (lit "USD")]),
         [redirect_line (cleanNumber phoneNumber)].
  rewrite <- !app_assoc. reflexivity.
Qed.

Lemma cleanNumber_filter phoneNumber :
  cleanNumber phoneNumber = dialable_string phoneNumber.
Proof.
  unfold cleanNumber, dialable_string.
  induction phoneNumber as [| c rest IH]; [reflexivity |].
  cbn [replace_class_g filter]. rewrite IH.
  replace (class_matches phone_separators c) with (is_separator c).
  - destruct (is_separator c); reflexivity.
  - unfold class_matches, phone_separators, is_separator; cbn.
    rewrite orb_false_r, !orb_assoc. reflexivity.
Qed.


Lemma checkPixelStatus_run now w :
  checkPixelStatus now w
  = mkResult (Normal (lit "Check complete")) w (status_lines w).
Proof. reflexivity. Qed.




Lemma suppress_event_no_timer e_arg :
  filter is_timer (suppress_event e_arg) = [].
Proof.
  destruct e_arg as [e |]; [| reflexivity].
  unfold suppress_event, invoke_if_present.
  destruct (ToBoolean e); [| reflexivity].
  destruct e; try reflexivity.
  destruct (lookup_prop "preventDefault" props);
    destruct (lookup_prop "stopPropagation" props); reflexivity.
Qed.

Lemma handlePhoneCall_one_timer phoneNumber e_arg now w :
  calls_return (effects (handlePhoneCall phoneNumber e_arg now w)) = true ->
  exists before,
    effects (handlePhoneCall phoneNumber e_arg now w)
    = before ++ [navigation_timer (cleanNumber phoneNumber)]
    /\ filter is_timer before = [].
Proof.
  intros Hall. rewrite handlePhoneCall_ran_through by exact Hall.
  cbn [effects].
  exists ([triggered_line phoneNumber] ++ suppress_event e_arg
          ++ effects (trackContactEvent None None now w)
          ++ [redirect_line (cleanNumber phoneNumber)]).
  split; [rewrite <- !app_assoc; reflexivity |].
  rewrite !filter_app, suppress_event_no_timer.
  destruct (track_paths None None now w); reflexivity.
Qed.

Lemma suppress_event_prefix_no_timer e_arg before rest :
  suppress_event e_arg = before ++ rest -> filter is_timer before = [].
Proof.
  intros Hsplit. pose proof (suppress_event_no_timer e_arg) as Hnone.
  rewrite Hsplit, filter_app in Hnone.
  now apply app_eq_nil in Hnone.
Qed.

(** A handler that was stopped by a callable that threw has set no timer. *)
Lemma handlePhoneCall_no_timer_when_stopped phoneNumber e_arg now w :
  calls_return (effects (handlePhoneCall phoneNumber e_arg now w)) = false ->
  count_timers (effects (handlePhoneCall phoneNumber e_arg now w)) = 0%nat /\
  exists err, completion (handlePhoneCall phoneNumber e_arg now w) = Throw err.
Proof.
  destruct (phone_paths phoneNumber e_arg now w)
    as [before f after v Hsplit Hbefore Hthrow
       | h v Hret Hge Hh Hcall | Hret Hnormal];
    cbn [completion effects]; intros Hall.
  - split; [| eexists; reflexivity].
    unfold count_timers. rewrite !filter_app.
    rewrite (suppress_event_prefix_no_timer _ _ _ Hsplit). reflexivity.
  - split; [| eexists; reflexivity].
    unfold count_timers. rewrite !filter_app, suppress_event_no_timer.
    reflexivity.
  - exfalso.
    rewrite !calls_return_app, Hret in Hall.
    rewrite (proj1 (track_normal_iff _ _ _ _) Hnormal) in Hall.
    discriminate Hall.
Qed.

(** C9, as the code has it. A call of [handlePhoneCall] in which every
    callable it invoked returned completes normally and ends by setting the
    one timer that navigates to [tel:] followed by the dialable string. This
    is so, given that the capabilities of the event return, whenever the
    dispatch was suppressed by the debounce guard and whenever the hook was
    missing, the hook not being called then. When a callable it invoked
    threw, the handler was stopped there and has set no timer. *)
Theorem C9_navigation_scheduled_when_calls_return :
  forall phoneNumber e_arg now w,
    let r := handlePhoneCall phoneNumber e_arg now w in
    (calls_return (effects r) = true ->
     completion r = Normal tt /\
     exists before,
       effects r
       = before
         ++ [ESetTimeout
               (AssignLocationHref (lit "tel:" ++ cleanNumber phoneNumber)) 100]
       /\ filter is_timer before = []) /\
    (calls_return (suppress_event e_arg) = true ->
     now - LastTrackTime w < 1000 ->
     completion r = Normal tt /\
     In (prevented_line (now - LastTrackTime w)) (effects r) /\
     In (navigation_timer (cleanNumber phoneNumber)) (effects r)) /\
    (calls_return (suppress_event e_arg) = true ->
     1000 <= now - LastTrackTime w ->
     typeof_is_function (fbq w) = false ->
     completion r = Normal tt /\
     In not_found_line (effects r) /\
     In (navigation_timer (cleanNumber phoneNumber)) (effects r)) /\
    (calls_return (effects r) = false ->
     count_timers (effects r) = 0%nat /\
     exists err, completion r = Throw err).
Proof.
  intros phoneNumber e_arg now w r. subst r.
  split.
  { intros Hall. split.
    - rewrite handlePhoneCall_ran_through by exact Hall. reflexivity.
    - exact (handlePhoneCall_one_timer _ _ _ _ Hall). }
  split.
  { intros Hev Hlt.
    rewrite handlePhoneCall_completed;
      [| exact Hev | rewrite track_suppressed by exact Hlt; reflexivity].
    rewrite track_suppressed by exact Hlt. cbn [completion effects].
    split; [reflexivity |].
    split; rewrite !in_app_iff.
    - right. right. left. now left.
    - do 3 right. right. now left. }
  split.
  { intros Hev Hge Hf.
    rewrite handlePhoneCall_completed;
      [| exact Hev | rewrite track_hook_missing by assumption; reflexivity].
    rewrite track_hook_missing by assumption. cbn [completion effects].
    split; [reflexivity |].
    split; rewrite !in_app_iff.
    - right. right. left. now left.
    - do 3 right. right. now left. }
  apply handlePhoneCall_no_timer_when_stopped.
Qed.

(** C10. [checkPixelStatus] returns the string "Check complete" in every
    state, leaves the whole state as it was, and its effects are its five
    console lines only. *)
Theorem C10_status_check_is_pure :
  forall now w,
    let r := checkPixelStatus now w in
    completion r = Normal (lit "Check complete") /\
    window_after r = w /\
    LastTrackTime (window_after r) = LastTrackTime w /\
    effects r = status_lines w /\
    forallb is_console (effects r) = true.
Proof.
  intros now w r. subst r. rewrite checkPixelStatus_run.
  repeat split.
Qed.

(** *** Sequences of turns *)

Lemma track_guard_change value currency now w :
  GuardChange now w (trackContactEvent value currency now w).
Proof.
  destruct (track_paths value currency now w)
    as [Hlt | h Hge Hh Hret | h v Hge Hh Hthrow | Hge Hf].
  - now apply GuardKept.
  - eapply GuardStamped; eauto. right. left. reflexivity.
  - now apply GuardKept.
  - now apply GuardKept.
Qed.

Lemma exec_guard_change o now w : GuardChange now w (exec o now w).
Proof.
  destruct o as [value currency | phoneNumber e_arg | | cb]; cbn [exec].
  - apply track_guard_change.
  - destruct (phone_paths phoneNumber e_arg now w)
      as [before f after v Hsplit Hbefore Hthrow
         | h v Hret Hge Hh Hcall | Hret Hnormal].
    + now apply GuardKept.
    + now apply GuardKept.
    + destruct (track_guard_change None None now w)
        as [Hkept | h value currency Hh Hge Hin Hset].
      * now apply GuardKept.
      * eapply GuardStamped; eauto. cbn [effects].
        rewrite !in_app_iff. right. right. left. exact Hin.
  - now apply GuardKept.
  - destruct cb. now apply GuardKept.
Qed.

Lemma LastTrackTime_ext w w' :
  _lastContactTrackTime w' = _lastContactTrackTime w ->
  LastTrackTime w' = LastTrackTime w.
Proof. unfold LastTrackTime. now intros ->. Qed.

Lemma LastTrackTime_stamped now w :
  _lastContactTrackTime w = Some now -> LastTrackTime w = now.
Proof.
  unfold LastTrackTime. intros ->. cbn.
  destruct (Z.eqb_spec now 0) as [-> | _]; reflexivity.
Qed.

(** A turn never moves LastTrackTime back, whatever the clock reads. *)
Lemma run_step_guard_le w st :
  LastTrackTime w <= LastTrackTime (window_after (run_step w st)).
Proof.
  unfold run_step.
  destruct (exec_guard_change (op st) (at_time st) (install_hook (hook st) w))
    as [Hkept | h value currency Hh Hge Hin Hset].
  - rewrite (LastTrackTime_ext _ _ Hkept), LastTrackTime_install_hook. lia.
  - rewrite (LastTrackTime_stamped _ _ Hset).
    rewrite LastTrackTime_install_hook in Hge. unfold TRACK_DEBOUNCE_MS in Hge.
    lia.
Qed.

Lemma guard_history_sorted w steps : Sorted Z.le (guard_history w steps).
Proof.
  revert w. induction steps as [| st rest IH]; intros w.
  - repeat constructor.
  - unfold guard_history. cbn [run map].
    constructor.
    + exact (IH (window_after (run_step w st))).
    + constructor. apply run_step_guard_le.
Qed.

Lemma spaced_from_weaken prev prev' ts :
  prev' <= prev -> spaced_from prev ts -> spaced_from prev' ts.
Proof.
  intros Hle. destruct ts as [| t rest]; [trivial |].
  cbn [spaced_from]. intros [Hge Hrest]. split; [lia | exact Hrest].
Qed.

(** C6, as the code has it. In a sequence of calls of the tracker in which
    the hook is a function at each call, the first call comes at least
    1000 ms after the stored LastTrackTime and each later call at least
    1000 ms after the call before it, every call makes exactly one
    dispatch. *)
Theorem C6_spaced_calls_each_dispatch :
  forall w steps,
    forallb is_track_step steps = true ->
    forallb hook_callable steps = true ->
    spaced_from (LastTrackTime w) (map at_time steps) ->
    Forall (fun n => n = 1%nat) (dispatch_counts (run w steps)).
Proof.
  intros w steps. revert w.
  induction steps as [| st rest IH]; intros w Htrack Hhook Hspaced.
  - constructor.
  - cbn [forallb] in Htrack, Hhook.
    apply andb_prop in Htrack as [Hst Hrest].
    apply andb_prop in Hhook as [Hh Hhrest].
    cbn [map spaced_from] in Hspaced. destruct Hspaced as [Hge Hlater].
    destruct st as [now hk o]. unfold is_track_step in Hst.
    unfold hook_callable in Hh. cbn [op hook at_time] in *.
    destruct o as [value currency | | |]; try discriminate.
    destruct (typeof_is_function_inv _ Hh) as [h ->].
    unfold dispatch_counts. cbn [run map]. unfold run_step.
    cbn [op hook at_time exec].
    constructor.
    + rewrite (track_dispatch_effects _ _ _ _ h);
        [reflexivity
        | rewrite LastTrackTime_install_hook; exact Hge | reflexivity].
    + apply IH; try assumption.
      apply (spaced_from_weaken now); [| exact Hlater].
      destruct (track_guard_change value currency now
                  (install_hook (VFunction h) w))
        as [Hkept | h' value' currency' _ _ _ Hset].
      * rewrite (LastTrackTime_ext _ _ Hkept), LastTrackTime_install_hook.
        lia.
      * rewrite (LastTrackTime_stamped _ _ Hset). lia.
Qed.

(** C7. LastTrackTime is 0 in the state the page starts in; an operation
    either leaves the stored guard as it was or (hook a function, debounce
    passed) dispatches and sets it to the clock reading; and along every
    sequence of turns whose clock readings are nondecreasing, the successive
    values of LastTrackTime are nondecreasing. *)
Theorem C7_guard_monotone :
  (forall href, LastTrackTime (initial_window href) = 0) /\
  (forall w st,
      let r := run_step w st in
      _lastContactTrackTime (window_after r) = _lastContactTrackTime w
      \/ (exists h value currency,
             hook st = VFunction h /\
             1000 <= at_time st - LastTrackTime w /\
             In (ECall h (contact_args value currency)) (effects r) /\
             _lastContactTrackTime (window_after r) = Some (at_time st) /\
             LastTrackTime (window_after r) = at_time st)) /\
  (forall w steps,
      Sorted Z.le (map at_time steps) ->
      Sorted Z.le (guard_history w steps)).
Proof.
  split; [reflexivity |]. split.
  - intros w st r. subst r. unfold run_step.
    destruct (exec_guard_change (op st) (at_time st) (install_hook (hook st) w))
      as [Hkept | h value currency Hh Hge Hin Hset].
    + left. exact Hkept.
    + right. exists h, value, currency.
      rewrite LastTrackTime_install_hook in Hge.
      repeat split; try assumption.
      apply LastTrackTime_stamped. exact Hset.
  - intros w steps _. apply guard_history_sorted.
Qed.

(* ===================================================================== *)
(** * Further properties of the module *)
(* ===================================================================== *)

(** *** Dispatches along a run *)

Lemma suppress_event_quiet e_arg :
  existsb is_contact_dispatch (suppress_event e_arg) = false.
Proof.
  destruct e_arg as [e |]; [| reflexivity].
  unfold suppress_event, invoke_if_present.
  destruct (ToBoolean e); [| reflexivity].
  destruct e; try reflexivity.
  destruct (lookup_prop "preventDefault" props);
    destruct (lookup_prop "stopPropagation" props); reflexivity.
Qed.

Lemma dispatch_trace_dispatched h value currency :
  existsb is_contact_dispatch (dispatch_trace h value currency) = true.
Proof. reflexivity. Qed.

Lemma track_outcome value currency now w :
  calls_return (effects (trackContactEvent value currency now w)) = true ->
  TurnOutcome now w (trackContactEvent value currency now w).
Proof.
  intros Hall. apply track_normal_iff in Hall.
  destruct (track_paths value currency now w)
    as [Hlt | h Hge Hh Hret | h v Hge Hh Hthrow | Hge Hf].
  - now apply TurnQuiet.
  - apply (TurnDispatch _ _ _ h); try assumption; reflexivity.
  - discriminate Hall.
  - now apply TurnQuiet.
Qed.

Lemma dispatched_ran_through phoneNumber e_arg now w :
  existsb is_contact_dispatch
    ([triggered_line phoneNumber] ++ suppress_event e_arg
     ++ effects (trackContactEvent None None now w)
     ++ [redirect_line (cleanNumber phoneNumber);
         navigation_timer (cleanNumber phoneNumber)])
  = dispatched (trackContactEvent None None now w).
Proof.
  unfold dispatched. rewrite !existsb_app, suppress_event_quiet.
  unfold triggered_line, redirect_line, navigation_timer.
  cbn [existsb is_contact_dispatch orb]. rewrite orb_false_r. reflexivity.
Qed.

Lemma exec_outcome o now w :
  calls_return (effects (exec o now w)) = true ->
  TurnOutcome now w (exec o now w).
Proof.
  destruct o as [value currency | phoneNumber e_arg | | cb]; cbn [exec].
  - apply track_outcome.
  - intros Hall.
    destruct (handler_calls_return_inv _ _ _ _ Hall) as [Hev Hnormal].
    rewrite handlePhoneCall_ran_through by exact Hall.
    apply track_normal_iff in Hnormal.
    destruct (track_outcome None None now w Hnormal)
      as [Hq Hk | h Hd Hh Hge Hs].
    + apply TurnQuiet.
      * unfold dispatched at 1. cbn [effects].
        rewrite dispatched_ran_through. exact Hq.
      * exact Hk.
    + apply (TurnDispatch _ _ _ h); try assumption.
      unfold dispatched at 1. cbn [effects].
      rewrite dispatched_ran_through. exact Hd.
  - intros _. now apply TurnQuiet.
  - intros _. destruct cb. now apply TurnQuiet.
Qed.

Lemma run_step_outcome w st :
  calls_return (effects (run_step w st)) = true ->
  TurnOutcome (at_time st) (install_hook (hook st) w) (run_step w st).
Proof. apply exec_outcome. Qed.

Lemma run_trace_cons w st rest :
  run_trace w (st :: rest)
  = effects (run_step w st) ++ run_trace (window_after (run_step w st)) rest.
Proof. reflexivity. Qed.

Lemma run_trace_calls_return w st rest :
  calls_return (run_trace w (st :: rest)) = true ->
  calls_return (effects (run_step w st)) = true /\
  calls_return (run_trace (window_after (run_step w st)) rest) = true.
Proof.
  rewrite run_trace_cons, calls_return_app. apply andb_prop.
Qed.

Lemma dispatch_times_spaced w steps :
  calls_return (run_trace w steps) = true ->
  spaced_from (LastTrackTime w) (dispatch_times w steps).
Proof.
  revert w. induction steps as [| st rest IH]; intros w Hall; [exact I |].
  apply run_trace_calls_return in Hall as [Hst Hrest].
  cbn [dispatch_times].
  destruct (run_step_outcome w st Hst) as [Hq Hk | h Hd Hh Hge Hs].
  - rewrite Hq, app_nil_l.
    rewrite <- (LastTrackTime_install_hook (hook st) w).
    rewrite <- (LastTrackTime_ext _ _ Hk). apply IH. exact Hrest.
  - rewrite Hd. change ([at_time st] ++ ?l) with (at_time st :: l).
    cbn [spaced_from]. split.
    + rewrite LastTrackTime_install_hook in Hge. exact Hge.
    + rewrite <- (LastTrackTime_stamped _ _ Hs). apply IH. exact Hrest.
Qed.

Lemma dispatch_times_incl w steps :
  incl (dispatch_times w steps) (map at_time steps).
Proof.
  revert w. induction steps as [| st rest IH]; intros w t Hin; [exact Hin |].
  cbn [dispatch_times] in Hin. apply in_app_or in Hin as [Hin | Hin].
  - destruct (dispatched (run_step w st)); [| contradiction].
    destruct Hin as [<- | []]. now left.
  - right. exact (IH _ _ Hin).
Qed.

Lemma spaced_from_bound prev ts hi :
  spaced_from prev ts ->
  Forall (fun t => t <= hi) ts ->
  ts = [] \/ 1000 * Z.of_nat (List.length ts) <= hi - prev.
Proof.
  revert prev. induction ts as [| t rest IH]; intros prev Hsp Hall;
    [now left |].
  right. cbn [spaced_from] in Hsp. destruct Hsp as [Hge Hrest].
  inversion Hall as [| ? ? Ht Hall']; subst.
  destruct (IH t Hrest Hall') as [-> | Hb]; cbn [List.length]; lia.
Qed.

Lemma last_cons {A} (x d : A) l : last (x :: l) d = last l x.
Proof.
  revert x d. induction l as [| y l IH]; intros x d; [reflexivity |].
  change (last (x :: y :: l) d) with (last (y :: l) d).
  rewrite (IH y d), (IH y x). reflexivity.
Qed.

Lemma final_window_cons w st rest :
  final_window w (st :: rest)
  = final_window (window_after (run_step w st)) rest.
Proof. reflexivity. Qed.

(** X1. Along every run in which the callables invoked return, from every
    state and whatever the clock does, each dispatch comes at least 1000 ms
    (by the clock readings) after the one before it, and the first at least
    1000 ms after the stored LastTrackTime. *)
Theorem X1_dispatches_are_spaced :
  forall w steps,
    calls_return (run_trace w steps) = true ->
    spaced_from (LastTrackTime w) (dispatch_times w steps).
Proof. exact dispatch_times_spaced. Qed.

(** X2. In a run in which the callables invoked return and whose clock
    readings all lie between [lo] and [hi], the number of dispatches is at
    most [1 + (hi - lo) / 1000]. *)
Theorem X2_dispatch_rate_bound :
  forall w steps lo hi,
    calls_return (run_trace w steps) = true ->
    lo <= hi ->
    Forall (fun st => lo <= at_time st <= hi) steps ->
    Z.of_nat (List.length (dispatch_times w steps)) <= 1 + (hi - lo) / 1000.
Proof.
  intros w steps lo hi Hret Hlohi Hall.
  assert (Hin : Forall (fun t => lo <= t <= hi) (dispatch_times w steps)).
  { apply Forall_forall. intros t Ht.
    apply dispatch_times_incl in Ht. apply in_map_iff in Ht as (st & <- & Hst).
    exact (proj1 (Forall_forall _ _) Hall st Hst). }
  pose proof (dispatch_times_spaced w steps Hret) as Hsp.
  assert (Hdiv : 0 <= (hi - lo) / 1000) by (apply Z.div_pos; lia).
  destruct (dispatch_times w steps) as [| t rest];
    [cbn [List.length Z.of_nat]; lia |].
  cbn [spaced_from] in Hsp. destruct Hsp as [_ Hrest].
  inversion Hin as [| ? ? Ht Hrest_in]; subst.
  assert (Hle : Forall (fun t' => t' <= hi) rest).
  { eapply Forall_impl; [| exact Hrest_in]. cbn. intros; lia. }
  assert (Hq : Z.of_nat (List.length rest) <= (hi - lo) / 1000).
  { apply Z.div_le_lower_bound; [lia |].
    destruct (spaced_from_bound t rest hi Hrest Hle) as [-> | Hb];
      cbn [List.length Z.of_nat]; lia. }
  cbn [List.length]. lia.
Qed.

Lemma final_guard_is_last_dispatch w steps :
  calls_return (run_trace w steps) = true ->
  LastTrackTime (final_window w steps)
  = last (dispatch_times w steps) (LastTrackTime w).
Proof.
  revert w. induction steps as [| st rest IH]; intros w Hall; [reflexivity |].
  apply run_trace_calls_return in Hall as [Hst Hrest].
  rewrite final_window_cons, (IH _ Hrest). cbn [dispatch_times].
  destruct (run_step_outcome w st Hst) as [Hq Hk | h Hd Hh Hge Hs].
  - rewrite Hq, app_nil_l. f_equal.
    rewrite (LastTrackTime_ext _ _ Hk). apply LastTrackTime_install_hook.
  - rewrite Hd. change ([at_time st] ++ ?l) with (at_time st :: l).
    rewrite last_cons. f_equal.
    apply LastTrackTime_stamped. exact Hs.
Qed.

(** X3. After every run in which the callables invoked return,
    LastTrackTime is the clock reading of the latest turn that dispatched,
    and what it was at the start if none did. *)
Theorem X3_guard_is_latest_dispatch :
  forall w steps,
    calls_return (run_trace w steps) = true ->
    LastTrackTime (final_window w steps)
    = last (dispatch_times w steps) (LastTrackTime w).
Proof. exact final_guard_is_last_dispatch. Qed.

(** X4. A double click. When a phone call dispatches at [t1], a second phone
    call at any reading [t2] less than 1000 ms later dispatches nothing and
    leaves LastTrackTime at [t1], yet each of the two calls sets its own
    navigation timer; the hook and the capabilities of the two events
    return. *)
Theorem X4_double_click_one_dispatch_two_timers :
  forall p1 e1 p2 e2 t1 t2 w h,
    fbq w = VFunction h ->
    foreign_throws h (contact_args (lit "1.00") (lit "USD")) = None ->
    calls_return (suppress_event e1) = true ->
    calls_return (suppress_event e2) = true ->
    1000 <= t1 - LastTrackTime w ->
    t2 - t1 < 1000 ->
    let r1 := handlePhoneCall p1 e1 t1 w in
    let r2 := handlePhoneCall p2 e2 t2 (window_after r1) in
    dispatched r1 = true /\ dispatched r2 = false /\
    count_timers (effects r1) = 1%nat /\ count_timers (effects r2) = 1%nat /\
    LastTrackTime (window_after r2) = t1 /\
    In (navigation_timer (cleanNumber p1)) (effects r1) /\
    In (navigation_timer (cleanNumber p2)) (effects r2).
Proof.
  intros p1 e1 p2 e2 t1 t2 w h Hh Hret He1 He2 Hge Hlt r1 r2.
  assert (Ht1 : trackContactEvent None None t1 w
                = mkResult (Normal tt) (with_guard t1 w)
                    (dispatch_trace h (lit "1.00") (lit "USD")))
    by (apply track_dispatched; assumption).
  assert (Hr1 : r1 = mkResult (Normal tt) (with_guard t1 w)
                       ([triggered_line p1] ++ suppress_event e1
                        ++ dispatch_trace h (lit "1.00") (lit "USD")
                        ++ [redirect_line (cleanNumber p1);
                            navigation_timer (cleanNumber p1)])).
  { subst r1. rewrite handlePhoneCall_completed;
      [| exact He1 | rewrite Ht1; reflexivity].
    rewrite Ht1. reflexivity. }
  assert (Hlt2 : t2 - LastTrackTime (with_guard t1 w) < TRACK_DEBOUNCE_MS)
    by (rewrite LastTrackTime_with_guard; exact Hlt).
  assert (Hr2 : r2 = mkResult (Normal tt) (with_guard t1 w)
                       ([triggered_line p2] ++ suppress_event e2
                        ++ [prevented_line
                              (t2 - LastTrackTime (with_guard t1 w))]
                        ++ [redirect_line (cleanNumber p2);
                            navigation_timer (cleanNumber p2)])).
  { subst r2. rewrite Hr1. cbn [window_after].
    rewrite handlePhoneCall_completed;
      [| exact He2 | rewrite track_suppressed by exact Hlt2; reflexivity].
    rewrite track_suppressed by exact Hlt2. reflexivity. }
  rewrite Hr1, Hr2. cbn [effects window_after]. unfold dispatched, count_timers.
  cbn [effects].
  rewrite !existsb_app, !filter_app, !suppress_event_quiet,
    !suppress_event_no_timer, !in_app_iff.
  repeat split.
  - apply LastTrackTime_with_guard.
  - do 3 right. right. now left.
  - do 3 right. right. now left.
Qed.

(** *** What the operations leave alone *)

Lemma track_frame value currency now w :
  fbq (window_after (trackContactEvent value currency now w)) = fbq w /\
  location_href (window_after (trackContactEvent value currency now w))
  = location_href w.
Proof.
  destruct (track_paths value currency now w); split; reflexivity.
Qed.

Lemma handlePhoneCall_frame phoneNumber e_arg now w :
  fbq (window_after (handlePhoneCall phoneNumber e_arg now w)) = fbq w /\
  location_href (window_after (handlePhoneCall phoneNumber e_arg now w))
  = location_href w.
Proof.
  destruct (phone_paths phoneNumber e_arg now w); cbn [window_after];
    try (split; reflexivity).
  apply track_frame.
Qed.

(** X5. No operation of the module replaces the hook, and the tracker, the
    phone-call handler and the status check leave the location of the page
    as it is: the page only navigates when the timer fires, and the timer
    callback changes nothing but the location. *)
Theorem X5_only_the_timer_navigates :
  forall o now w,
    let r := exec o now w in
    fbq (window_after r) = fbq w /\
    (is_timer_op o = false ->
     location_href (window_after r) = location_href w) /\
    (forall url, o = OpTimer (AssignLocationHref url) ->
       location_href (window_after r) = url /\
       _lastContactTrackTime (window_after r) = _lastContactTrackTime w /\
       effects r = []).
Proof.
  intros o now w r. subst r.
  destruct o as [value currency | phoneNumber e_arg | | cb]; cbn [exec].
  - destruct (track_frame value currency now w) as [Hf Hl].
    split; [exact Hf |]. split; [intros _; exact Hl |]. discriminate.
  - destruct (handlePhoneCall_frame phoneNumber e_arg now w) as [Hf Hl].
    split; [exact Hf |]. split; [intros _; exact Hl |]. discriminate.
  - split; [reflexivity |]. split; [reflexivity |]. discriminate.
  - destruct cb as [url']. split; [reflexivity |].
    split; [discriminate |].
    intros url Heq. injection Heq as ->. repeat split.
Qed.

(** *** The dialable string *)

Lemma dialable_string_no_separator s :
  forallb (fun c => negb (is_separator c)) (dialable_string s) = true.
Proof.
  apply forallb_forall. intros c Hin.
  apply filter_In in Hin. exact (proj2 Hin).
Qed.

Lemma filter_id_iff {A} (f : A -> bool) l :
  filter f l = l <-> forallb f l = true.
Proof.
  induction l as [| a l IH]; [now split |].
  cbn [filter forallb]. destruct (f a) eqn:Hfa; cbn [andb].
  - split.
    + intros Heq. injection Heq as Heq. now apply IH.
    + intros Hall. f_equal. now apply IH.
  - split; [| discriminate].
    intros Heq.
    assert (Hin : In a (filter f l)) by (rewrite Heq; now left).
    apply filter_In in Hin. destruct Hin as [_ Hfa']. congruence.
Qed.

(** X6. The number [handlePhoneCall] dials never contains a whitespace
    unit, a [-], a [(] or a [)], and cleaning is idempotent: cleaning a
    cleaned number changes nothing. *)
Theorem X6_cleanNumber_clean_and_idempotent :
  forall phoneNumber,
    forallb (fun c => negb (is_js_space c || (c =? 45) || (c =? 40)
                            || (c =? 41))%N) (cleanNumber phoneNumber) = true /\
    cleanNumber (cleanNumber phoneNumber) = cleanNumber phoneNumber.
Proof.
  intros phoneNumber. rewrite !cleanNumber_filter. split.
  - apply dialable_string_no_separator.
  - apply filter_id_iff. apply dialable_string_no_separator.
Qed.

(** X7. A phone number is dialled as given exactly when it has no
    whitespace unit and no [-], [(] or [)]; otherwise the dialled string is
    strictly shorter. *)
Theorem X7_cleanNumber_fixed_points :
  forall phoneNumber,
    (cleanNumber phoneNumber = phoneNumber <->
     forallb (fun c => negb (is_separator c)) phoneNumber = true) /\
    (List.length (cleanNumber phoneNumber) <= List.length phoneNumber)%nat /\
    (cleanNumber phoneNumber <> phoneNumber ->
     (List.length (cleanNumber phoneNumber) < List.length phoneNumber)%nat).
Proof.
  intros phoneNumber. rewrite cleanNumber_filter. split; [| split].
  - apply filter_id_iff.
  - apply filter_length_le.
  - intros Hne. unfold dialable_string in *.
    induction phoneNumber as [| c rest IH]; [now elim Hne |].
    cbn [filter] in *. destruct (negb (is_separator c)).
    + cbn [List.length]. apply -> Nat.succ_lt_mono. apply IH.
      intros Heq. apply Hne. now f_equal.
    + cbn [List.length].
      pose proof (filter_length_le (fun c => negb (is_separator c)) rest).
      lia.
Qed.

(** X8. Cleaning goes through concatenation: the dialled form of two pieces
    put together is the dialled forms put together; so separators between
    or around the groups of a number make no difference. *)
Theorem X8_cleanNumber_concatenation :
  forall a b,
    cleanNumber (a ++ b) = cleanNumber a ++ cleanNumber b.
Proof.
  intros a b. rewrite !cleanNumber_filter. apply filter_app.
Qed.

(** *** What reaches the hook *)

Lemma suppress_event_calls e_arg eff :
  In eff (suppress_event e_arg) -> exists f, eff = ECall f [].
Proof.
  intros Hin.
  destruct e_arg as [e |]; [| contradiction].
  unfold suppress_event, invoke_if_present in Hin.
  destruct (ToBoolean e); [| contradiction].
  destruct e; try contradiction.
  destruct (lookup_prop "preventDefault" props);
    destruct (lookup_prop "stopPropagation" props);
    cbn in Hin; intuition (subst; eauto).
Qed.

(** X9. Every foreign call [handlePhoneCall] makes is either a call of a
    capability of the event, without arguments, or the call of the hook
    with "track", "Contact" and the value "1.00" in "USD": the phone number
    is never passed to a foreign function. *)
Theorem X9_phone_number_not_sent :
  forall phoneNumber e_arg now w eff,
    In eff (effects (handlePhoneCall phoneNumber e_arg now w)) ->
    is_call eff = true ->
    (exists f, eff = ECall f [] /\ In eff (suppress_event e_arg)) \/
    (exists h, fbq w = VFunction h /\
               eff = ECall h (contact_args (lit "1.00") (lit "USD"))).
Proof.
  intros phoneNumber e_arg now w eff Hin Hcall.
  assert (Hevent : In eff (suppress_event e_arg) ->
                   exists f, eff = ECall f [] /\ In eff (suppress_event e_arg)).
  { intros Hs. destruct (suppress_event_calls _ _ Hs) as [f ->].
    exists f. split; [reflexivity | exact Hs]. }
  destruct (phone_paths phoneNumber e_arg now w)
    as [before f after v Hsplit Hbefore Hthrow
       | h v Hret Hge Hh Hcall' | Hret Hnormal];
    cbn [effects] in Hin; rewrite !in_app_iff in Hin.
  - left. apply Hevent. rewrite Hsplit. rewrite in_app_iff.
    destruct Hin as [Hin | [Hin | Hin]].
    + destruct Hin as [<- | []]. discriminate Hcall.
    + now left.
    + destruct Hin as [<- | []]. right. now left.
  - destruct Hin as [Hin | [Hin | Hin]].
    + destruct Hin as [<- | []]. discriminate Hcall.
    + left. now apply Hevent.
    + right. destruct Hin as [<- | [<- | []]]; [discriminate Hcall |].
      exists h. split; [exact Hh | reflexivity].
  - destruct Hin as [Hin | [Hin | [Hin | Hin]]].
    + destruct Hin as [<- | []]. discriminate Hcall.
    + left. now apply Hevent.
    + right.
      destruct (track_paths None None now w)
        as [Hlt | h Hge Hh Hret' | h v Hge Hh Hthrow | Hge Hf];
        cbn [effects] in Hin.
      * destruct Hin as [<- | []]. discriminate Hcall.
      * destruct Hin as [<- | [<- | []]]; [discriminate Hcall |].
        exists h. split; [exact Hh | reflexivity].
      * destruct Hin as [<- | [<- | []]]; [discriminate Hcall |].
        exists h. split; [exact Hh | reflexivity].
      * destruct Hin as [<- | []]. discriminate Hcall.
    + destruct Hin as [<- | [<- | []]]; discriminate Hcall.
Qed.

(** X10. A value that rounds to zero hundredths is sent as "0.00", and a
    negative one keeps its sign: "-0.00". This is the case of every finite
    value of magnitude below 0.005, that is [m * 2^e] with [e < 0] and
    [200 * m < 2^(-e)]. *)
Theorem X10_small_values_sent_as_zero :
  forall (s : bool) (m : positive) (e : Z) currency now w h,
    e < 0 ->
    200 * Zpos m < 2 ^ (- e) ->
    1000 <= now - LastTrackTime w ->
    fbq w = VFunction h ->
    In (ECall h (contact_args ((if s then lit "-" else []) ++ lit "0.00")
                              (or_default currency default_currency)))
       (effects (trackContactEvent (Some (S754_finite s m e)) currency now w)).
Proof.
  intros s m e currency now w h He Hsmall Hge Hh.
  rewrite (track_dispatch_effects _ _ _ _ h) by assumption.
  cbn [or_default]. right. left.
  assert (Hk : 0 < 2 ^ (- e)) by (apply Z.pow_pos_nonneg; lia).
  assert (Hfix : toFixed (S754_finite s m e) 2
                 = (if s then lit "-" else []) ++ lit "0.00").
  { unfold toFixed, at_least_1e21, nearest_scaled.
    destruct (Z.leb_spec 0 e) as [Hpos | _]; [lia |].
    destruct (Z.leb_spec (10 ^ 21 * 2 ^ (- e)) (Zpos m)) as [Hbig | _];
      [nia |].
    replace ((2 * Zpos m * 10 ^ Z.of_nat 2 + 2 ^ (- e)) / (2 * 2 ^ (- e)))
      with 0; [reflexivity |].
    symmetry. apply Z.div_small. change (10 ^ Z.of_nat 2) with 100. lia. }
  rewrite Hfix. reflexivity.
Qed.

(** *** The status check and the tracker *)

(** X11. The status check tells what the tracker would do: it prints
    [fbq available: true] exactly when a call of the tracker that passes
    the debounce check would dispatch, and the guard it prints is the one
    the tracker compares the clock with. *)
Theorem X11_status_check_predicts_tracker :
  forall now now' w value currency,
    1000 <= now' - LastTrackTime w ->
    (In (EConsole LLog [VString (lit "fbq available:"); VBool true])
        (effects (checkPixelStatus now w))
     <-> dispatched (trackContactEvent value currency now' w) = true) /\
    In (EConsole LLog [VString (lit "Last track time:");
                       VString (Date_toLocaleTimeString (LastTrackTime w))])
       (effects (checkPixelStatus now w)).
Proof.
  intros now now' w value currency Hge.
  rewrite checkPixelStatus_run. cbn [effects]. unfold status_lines. split.
  - destruct (typeof_is_function (fbq w)) eqn:Hf.
    + destruct (typeof_is_function_inv _ Hf) as [h Hh].
      unfold dispatched.
      rewrite (track_dispatch_effects _ _ _ _ h) by assumption.
      split; [intros _; apply dispatch_trace_dispatched |].
      intros _. right. left. reflexivity.
    + rewrite track_hook_missing by assumption.
      split; [| discriminate].
      intros Hin. cbn [In] in Hin.
      repeat (destruct Hin as [Hin | Hin]; [discriminate Hin |]).
      contradiction.
  - right. right. left. reflexivity.
Qed.

(** *** Runs without the hook, and timers *)

Lemma existsb_prefix_false {A} (f : A -> bool) l a b :
  l = a ++ b -> existsb f l = false -> existsb f a = false.
Proof.
  intros -> Hall. rewrite existsb_app in Hall.
  now apply orb_false_elim in Hall.
Qed.

(** Without a hook an operation dispatches nothing and keeps the guard,
    also when a capability of the event throws. *)
Lemma exec_without_hook o now w :
  typeof_is_function (fbq w) = false ->
  dispatched (exec o now w) = false /\
  _lastContactTrackTime (window_after (exec o now w))
  = _lastContactTrackTime w.
Proof.
  intros Hf.
  assert (Htrack : forall value currency,
             dispatched (trackContactEvent value currency now w) = false /\
             _lastContactTrackTime
               (window_after (trackContactEvent value currency now w))
             = _lastContactTrackTime w).
  { intros value currency.
    destruct (track_paths value currency now w)
      as [Hlt | h Hge Hh Hret | h v Hge Hh Hthrow | Hge _];
      try (rewrite Hh in Hf; discriminate Hf); split; reflexivity. }
  destruct o as [value currency | phoneNumber e_arg | | cb]; cbn [exec].
  - apply Htrack.
  - destruct (phone_paths phoneNumber e_arg now w)
      as [before f after v Hsplit Hbefore Hthrow
         | h v Hret Hge Hh Hcall | Hret Hnormal].
    + split; [| reflexivity].
      unfold dispatched. cbn [effects]. rewrite !existsb_app.
      rewrite (existsb_prefix_false _ _ _ _ Hsplit (suppress_event_quiet e_arg)).
      reflexivity.
    + rewrite Hh in Hf. discriminate Hf.
    + destruct (Htrack None None) as [Hq Hk].
      split; [| exact Hk].
      unfold dispatched at 1. cbn [effects].
      rewrite dispatched_ran_through. exact Hq.
  - split; reflexivity.
  - destruct cb. split; reflexivity.
Qed.

(** X12. Attempts made while the hook is missing use up nothing: over a run
    in which [window.fbq] is never a function no dispatch is made and the
    stored guard is left exactly as it was, so the first call after the hook
    has loaded is judged against the old guard. *)
Theorem X12_failed_attempts_keep_guard :
  forall w steps,
    forallb (fun st => negb (hook_callable st)) steps = true ->
    dispatch_times w steps = [] /\
    _lastContactTrackTime (final_window w steps) = _lastContactTrackTime w.
Proof.
  intros w steps. revert w.
  induction steps as [| st rest IH]; intros w Hnone; [split; reflexivity |].
  cbn [forallb] in Hnone. apply andb_prop in Hnone as [Hst Hrest].
  rewrite final_window_cons. cbn [dispatch_times].
  assert (Hf : typeof_is_function (fbq (install_hook (hook st) w)) = false).
  { unfold hook_callable in Hst. cbn [install_hook fbq].
    now apply negb_true_iff in Hst. }
  destruct (exec_without_hook (op st) (at_time st) _ Hf) as [Hq Hk].
  fold (run_step w st) in Hq, Hk.
  rewrite Hq, app_nil_l.
  destruct (IH (window_after (run_step w st)) Hrest) as [Hd' Hg'].
  split; [exact Hd' |]. rewrite Hg'. exact Hk.
Qed.

(** The timers an operation sets: one by a phone call that ran through,
    none otherwise. *)
Lemma exec_timer_count o now w :
  count_timers (effects (exec o now w))
  = match o with
    | OpPhone _ _ =>
      if calls_return (effects (exec o now w)) then 1%nat else 0%nat
    | _ => 0%nat
    end.
Proof.
  destruct o as [value currency | phoneNumber e_arg | | cb]; cbn [exec].
  - destruct (track_paths value currency now w); reflexivity.
  - destruct (calls_return (effects (handlePhoneCall phoneNumber e_arg now w)))
      eqn:Hall.
    + destruct (handlePhoneCall_one_timer phoneNumber e_arg now w Hall)
        as [before [-> Hnone]].
      unfold count_timers. rewrite filter_app, Hnone. reflexivity.
    + exact (proj1 (handlePhoneCall_no_timer_when_stopped _ _ _ _ Hall)).
  - reflexivity.
  - destruct cb. reflexivity.
Qed.

(** X13. Over every run only phone calls set timers, and each at most one:
    the number of timers set never exceeds the number of phone calls
    handled, and equals it when the callables invoked return (a phone call
    stopped by a callable that throws sets none). *)
Theorem X13_one_timer_per_phone_call :
  forall w steps,
    (count_timers (run_trace w steps)
     <= List.length (filter is_phone_step steps))%nat /\
    (calls_return (run_trace w steps) = true ->
     count_timers (run_trace w steps)
     = List.length (filter is_phone_step steps)).
Proof.
  intros w steps. revert w.
  induction steps as [| st rest IH]; intros w;
    [split; [apply Nat.le_refl | reflexivity] |].
  rewrite run_trace_cons. unfold count_timers in *.
  rewrite filter_app, length_app.
  destruct (IH (window_after (run_step w st))) as [IHle IHeq].
  pose proof (exec_timer_count (op st) (at_time st) (install_hook (hook st) w))
    as Hc.
  unfold count_timers in Hc. fold (run_step w st) in Hc.
  rewrite calls_return_app.
  destruct st as [t hk o]. cbn [filter]. unfold is_phone_step at 1 3.
  cbn [op] in *.
  destruct o as [value currency | phoneNumber e_arg | | cb];
    rewrite Hc; cbn [List.length].
  - split; [exact IHle |]. intros Hall.
    apply andb_prop in Hall as [_ Hrest]. now apply IHeq.
  - destruct (calls_return
                (effects (run_step w (mkStep t hk (OpPhone phoneNumber e_arg)))))
      eqn:Hst; cbn [andb].
    + split; [lia |]. intros Hrest. rewrite (IHeq Hrest). reflexivity.
    + split; [lia | discriminate].
  - split; [exact IHle |]. intros Hall.
    apply andb_prop in Hall as [_ Hrest]. now apply IHeq.
  - split; [exact IHle |]. intros Hall.
    apply andb_prop in Hall as [_ Hrest]. now apply IHeq.
Qed.

(** *** The stored guard on a page *)

Lemma guard_unset_or_stamped_nonneg w :
  guard_unset_or_stamped w -> 0 <= LastTrackTime w.
Proof.
  unfold guard_unset_or_stamped, LastTrackTime.
  destruct (_lastContactTrackTime w) as [t |]; [| lia].
  intros Ht. cbn [ToBoolean].
  destruct (Z.eqb_spec t 0) as [-> | _]; cbn [negb]; lia.
Qed.

Lemma run_step_keeps_guard_shape w st :
  guard_unset_or_stamped w ->
  guard_unset_or_stamped (window_after (run_step w st)).
Proof.
  intros Hw. unfold run_step.
  destruct (exec_guard_change (op st) (at_time st) (install_hook (hook st) w))
    as [Hkept | h value currency Hh Hge Hin Hset].
  - unfold guard_unset_or_stamped in *. rewrite Hkept. exact Hw.
  - unfold guard_unset_or_stamped. rewrite Hset.
    rewrite LastTrackTime_install_hook in Hge.
    pose proof (guard_unset_or_stamped_nonneg w Hw).
    unfold TRACK_DEBOUNCE_MS in Hge. lia.
Qed.

(** X14. On a page, starting with no guard stored, after a run in which the
    callables invoked return the guard is either still unset, and then
    nothing was dispatched so far, or a clock reading of at least 1000 taken
    in one of the turns: the fallback to 0 of [getGlobalLastTrackTime] only
    ever stands for "never tracked". *)
Theorem X14_stored_guard_on_a_page :
  forall href steps,
    calls_return (run_trace (initial_window href) steps) = true ->
    let w := final_window (initial_window href) steps in
    match _lastContactTrackTime w with
    | None => dispatch_times (initial_window href) steps = []
              /\ LastTrackTime w = 0
    | Some t => 1000 <= t /\ In t (map at_time steps)
                /\ LastTrackTime w = t
    end.
Proof.
  intros href steps Hret w.
  assert (Hshape : forall w0 l, guard_unset_or_stamped w0 ->
                           guard_unset_or_stamped (final_window w0 l)).
  { intros w0 l. revert w0.
    induction l as [| st rest IH]; intros w0 Hw0; [exact Hw0 |].
    rewrite final_window_cons. apply IH. now apply run_step_keeps_guard_shape. }
  pose proof (Hshape (initial_window href) steps I) as Hw.
  pose proof (dispatch_times_spaced (initial_window href) steps Hret) as Hsp.
  pose proof (dispatch_times_incl (initial_window href) steps) as Hincl.
  assert (Hlast : LastTrackTime w
                  = last (dispatch_times (initial_window href) steps) 0)
    by (subst w; apply final_guard_is_last_dispatch; exact Hret).
  unfold guard_unset_or_stamped in Hw. fold w in Hw.
  destruct (_lastContactTrackTime w) as [t |] eqn:Hfield.
  - assert (Ht : LastTrackTime w = t) by (apply LastTrackTime_stamped; exact Hfield).
    split; [exact Hw |]. split; [| exact Ht].
    rewrite Hlast in Ht.
    destruct (dispatch_times (initial_window href) steps) as [| t1 rest] eqn:Hd.
    + cbn in Ht. lia.
    + apply Hincl. rewrite <- Ht.
      destruct (exists_last (l := t1 :: rest) ltac:(discriminate))
        as (l' & a & Heq).
      rewrite Heq, last_last. apply in_or_app. right. now left.
  - assert (Hzero : LastTrackTime w = 0)
      by (unfold LastTrackTime; rewrite Hfield; reflexivity).
    split; [| exact Hzero].
    rewrite Hlast in Hzero.
    destruct (dispatch_times (initial_window href) steps) as [| t1 rest] eqn:Hd;
      [reflexivity |].
    exfalso.
    assert (Hpos : forall prev ts d, spaced_from prev ts -> ts <> [] ->
                                0 <= prev -> 1000 <= last ts d).
    { intros prev ts. revert prev.
      induction ts as [| x ts' IHts]; intros prev d Hs Hne Hprev;
        [contradiction |].
      cbn [spaced_from] in Hs. destruct Hs as [Hx Hrest].
      rewrite last_cons. destruct ts' as [| y ts'']; [cbn; lia |].
      apply (IHts x x Hrest); [discriminate | lia]. }
    pose proof (Hpos _ _ 0 Hsp ltac:(discriminate) ltac:(cbn; lia)) as Hge.
    lia.
Qed.

End Properties.

(** ** Closed instances *)

Lemma C1_witness :
  1700000000400 - LastTrackTime page_tracked < 1000 /\
  let r := trackContactEvent (H := example_host) None None 1700000000400
             page_tracked in
  completion r = Normal tt /\
  window_after r = page_tracked /\
  LastTrackTime (window_after r) = LastTrackTime page_tracked /\
  effects r = [prevented_line 400] /\
  count_calls (effects r) = 0%nat.
Proof.
  split; [reflexivity |].
  apply (C1_debounced_call_is_noop (H := example_host) None None
           1700000000400 page_tracked).
  reflexivity.
Defined.

Lemma C2_witness :
  1000 <= 1700000000000 - LastTrackTime page_with_hook /\
  fbq page_with_hook = VFunction 1%N /\
  foreign_throws (Host := example_host) 1%N
    [VString (lit "track"); VString (lit "Contact");
     VObject [("value"%string, VString (lit "2.50"));
              ("currency"%string, VString (lit "EUR"))]] = None /\
  let r := trackContactEvent (H := example_host) (Some two_and_a_half)
             (Some (lit "EUR")) 1700000000000 page_with_hook in
  effects r
  = [track_line (lit "2.50") (lit "EUR");
     ECall 1%N [VString (lit "track"); VString (lit "Contact");
                VObject [("value"%string, VString (lit "2.50"));
                         ("currency"%string, VString (lit "EUR"))]]] /\
  LastTrackTime (window_after r) = 1700000000000 /\
  window_after r = page_tracked.
Proof.
  assert (Hge : 1000 <= 1700000000000 - LastTrackTime page_with_hook)
    by discriminate.
  split; [exact Hge |]. split; [reflexivity |]. split; [reflexivity |].
  pose proof (C2_dispatch_once_and_stamp (H := example_host)
                (Some two_and_a_half) (Some (lit "EUR")) 1700000000000
                page_with_hook 1%N Hge eq_refl eq_refl)
    as (_ & Heff & _ & Hlast & Hwin & _).
  exact (conj Heff (conj Hlast Hwin)).
Defined.

Lemma C3_witness :
  1000 <= 1700000000000 - LastTrackTime page_without_hook /\
  typeof_is_function (fbq page_without_hook) = false /\
  let r := trackContactEvent (H := example_host) None None 1700000000000
             page_without_hook in
  completion r = Normal tt /\
  effects r = [not_found_line] /\
  count_calls (effects r) = 0%nat /\
  window_after r = page_without_hook /\
  LastTrackTime (window_after r) = LastTrackTime page_without_hook /\
  (forall now' h value' currency',
      1700000000000 <= now' ->
      count_calls
        (effects (trackContactEvent (H := example_host) value' currency' now'
                    (install_hook (VFunction h) (window_after r))))
      = 1%nat).
Proof.
  split; [discriminate |]. split; [reflexivity |].
  apply (C3_missing_hook_leaves_state (H := example_host) None None
           1700000000000 page_without_hook).
  - discriminate.
  - reflexivity.
Defined.

Lemma C4_witness :
  calls_return (H := example_host)
    (effects (handlePhoneCall (H := example_host) example_phone
                (Some click_event) 1700000000000 page_with_hook)) = true /\
  effects (handlePhoneCall (H := example_host) example_phone (Some click_event)
             1700000000000 page_with_hook)
  = [triggered_line example_phone;
     ECall 2%N []; ECall 3%N [];
     track_line (lit "1.00") (lit "USD");
     ECall 1%N (contact_args (lit "1.00") (lit "USD"));
     redirect_line (lit "+18335494113");
     ESetTimeout (AssignLocationHref (lit "tel:+18335494113")) 100].
Proof.
  assert (Hret : calls_return (H := example_host)
                   (effects (handlePhoneCall (H := example_host) example_phone
                               (Some click_event) 1700000000000 page_with_hook))
                 = true) by reflexivity.
  split; [exact Hret |].
  exact (proj1 (C4_effects_in_order (H := example_host) example_phone
                  (Some click_event) 1700000000000 page_with_hook Hret)).
Defined.


Lemma C6_counterexample :
  (forallb is_track_step calls_without_hook = true /\
   consecutive_spaced (map at_time calls_without_hook) /\
   dispatch_counts
     (run (H := example_host) (initial_window example_href) calls_without_hook)
   = [0%nat; 0%nat] /\
   ~ Forall (fun n => n = 1%nat)
       (dispatch_counts
          (run (H := example_host) (initial_window example_href)
             calls_without_hook))) /\
  (forallb is_track_step call_inside_window = true /\
   consecutive_spaced (map at_time call_inside_window) /\
   forallb hook_callable call_inside_window = true /\
   dispatch_counts (run (H := example_host) page_tracked call_inside_window)
   = [0%nat] /\
   ~ Forall (fun n => n = 1%nat)
       (dispatch_counts
          (run (H := example_host) page_tracked call_inside_window))).
Proof.
  split.
  - split; [reflexivity |]. split; [cbn; split; [discriminate | exact I] |].
    split; [reflexivity |].
    intros Hall. inversion Hall as [| n rest Hn _]. discriminate Hn.
  - split; [reflexivity |]. split; [exact I |]. split; [reflexivity |].
    split; [reflexivity |].
    intros Hall. inversion Hall as [| n rest Hn _]. discriminate Hn.
Qed.

Lemma C6_witness :
  forallb is_track_step calls_with_hook = true /\
  forallb hook_callable calls_with_hook = true /\
  spaced_from (LastTrackTime page_without_hook) (map at_time calls_with_hook) /\
  Forall (fun n => n = 1%nat)
    (dispatch_counts (run (H := example_host) page_without_hook calls_with_hook)).
Proof.
  assert (Hspaced : spaced_from (LastTrackTime page_without_hook)
                      (map at_time calls_with_hook)).
  { cbn. repeat split; discriminate. }
  split; [reflexivity |]. split; [reflexivity |]. split; [exact Hspaced |].
  apply (C6_spaced_calls_each_dispatch (H := example_host) page_without_hook
           calls_with_hook); [reflexivity | reflexivity | exact Hspaced].
Defined.

Lemma C7_witness :
  Sorted Z.le (map at_time mixed_session) /\
  guard_history (H := example_host) page_without_hook mixed_session
  = [0; 0; 1700000000500; 1700000000500; 1700000000500; 1700000000500] /\
  Sorted Z.le (guard_history (H := example_host) page_without_hook mixed_session).
Proof.
  assert (Hclock : Sorted Z.le (map at_time mixed_session)).
  { cbn. repeat constructor; discriminate. }
  split; [exact Hclock |]. split; [reflexivity |].
  exact (proj2 (proj2 (C7_guard_monotone (H := example_host)))
           page_without_hook mixed_session Hclock).
Defined.



Lemma C9_counterexample :
  (let r := handlePhoneCall (H := failing_host) example_phone None
              1700000000000 page_with_failing_hook in
   completion r = Throw (Thrown (VString (lit "pixel stub failed"))) /\
   effects r
   = [triggered_line example_phone;
      track_line (lit "1.00") (lit "USD");
      ECall 9%N (contact_args (lit "1.00") (lit "USD"))] /\
   count_timers (effects r) = 0%nat /\
   ~ In (navigation_timer (cleanNumber example_phone)) (effects r)) /\
  (let r := handlePhoneCall (H := failing_host) example_phone
              (Some failing_event) 1700000000000 page_with_hook in
   completion r = Throw (Thrown (VString (lit "pixel stub failed"))) /\
   effects r = [triggered_line example_phone; ECall 9%N []] /\
   count_timers (effects r) = 0%nat /\
   ~ In (navigation_timer (cleanNumber example_phone)) (effects r)).
Proof.
  split; cbv zeta; (split; [reflexivity |]); (split; [reflexivity |]);
    (split; [reflexivity |]); vm_compute; intuition discriminate.
Qed.

Lemma C9_witness :
  calls_return (H := example_host) (suppress_event (Some click_event)) = true /\
  1700000000400 - LastTrackTime page_tracked < 1000 /\
  completion (handlePhoneCall (H := example_host) example_phone
                (Some click_event) 1700000000400 page_tracked) = Normal tt /\
  In (prevented_line (1700000000400 - LastTrackTime page_tracked))
     (effects (handlePhoneCall (H := example_host) example_phone
                 (Some click_event) 1700000000400 page_tracked)) /\
  In (navigation_timer (cleanNumber example_phone))
     (effects (handlePhoneCall (H := example_host) example_phone
                 (Some click_event) 1700000000400 page_tracked)).
Proof.
  split; [reflexivity |]. split; [reflexivity |].
  apply (proj1 (proj2 (C9_navigation_scheduled_when_calls_return
                         (H := example_host) example_phone (Some click_event)
                         1700000000400 page_tracked)));
    reflexivity.
Defined.

(** ** Closed instances of the further properties *)

Lemma X1_witness :
  calls_return (H := example_host)
    (run_trace (H := example_host) page_without_hook mixed_session) = true /\
  dispatch_times (H := example_host) page_without_hook mixed_session
  = [1700000000500] /\
  spaced_from (LastTrackTime page_without_hook)
    (dispatch_times (H := example_host) page_without_hook mixed_session).
Proof.
  assert (Hret : calls_return (H := example_host)
                   (run_trace (H := example_host) page_without_hook
                      mixed_session) = true) by reflexivity.
  split; [exact Hret |]. split; [reflexivity |].
  exact (X1_dispatches_are_spaced (H := example_host) page_without_hook
           mixed_session Hret).
Defined.

Lemma X2_witness :
  calls_return (H := example_host)
    (run_trace (H := example_host) page_without_hook mixed_session) = true /\
  1700000000000 <= 1700000000900 /\
  Forall (fun st => 1700000000000 <= at_time st <= 1700000000900) mixed_session /\
  Z.of_nat (List.length (dispatch_times (H := example_host) page_without_hook
                           mixed_session))
  <= 1 + (1700000000900 - 1700000000000) / 1000.
Proof.
  assert (Hret : calls_return (H := example_host)
                   (run_trace (H := example_host) page_without_hook
                      mixed_session) = true) by reflexivity.
  assert (Hlohi : 1700000000000 <= 1700000000900) by lia.
  assert (Hall : Forall (fun st => 1700000000000 <= at_time st <= 1700000000900)
                   mixed_session).
  { unfold mixed_session. repeat constructor; cbn [at_time]; lia. }
  split; [exact Hret |]. split; [exact Hlohi |]. split; [exact Hall |].
  exact (X2_dispatch_rate_bound (H := example_host) page_without_hook
           mixed_session 1700000000000 1700000000900 Hret Hlohi Hall).
Defined.

Lemma X3_witness :
  calls_return (H := example_host)
    (run_trace (H := example_host) page_without_hook mixed_session) = true /\
  LastTrackTime (final_window (H := example_host) page_without_hook
                   mixed_session)
  = last (dispatch_times (H := example_host) page_without_hook mixed_session)
         (LastTrackTime page_without_hook).
Proof.
  assert (Hret : calls_return (H := example_host)
                   (run_trace (H := example_host) page_without_hook
                      mixed_session) = true) by reflexivity.
  split; [exact Hret |].
  exact (X3_guard_is_latest_dispatch (H := example_host) page_without_hook
           mixed_session Hret).
Defined.

Lemma X4_witness :
  fbq page_with_hook = VFunction 1%N /\
  foreign_throws (Host := example_host) 1%N
    (contact_args (lit "1.00") (lit "USD")) = None /\
  calls_return (H := example_host) (suppress_event (Some click_event)) = true /\
  1000 <= 1700000000000 - LastTrackTime page_with_hook /\
  1700000000150 - 1700000000000 < 1000 /\
  let r1 := handlePhoneCall (H := example_host) example_phone (Some click_event)
              1700000000000 page_with_hook in
  let r2 := handlePhoneCall (H := example_host) example_phone (Some click_event)
              1700000000150 (window_after r1) in
  dispatched r1 = true /\ dispatched r2 = false /\
  count_timers (effects r1) = 1%nat /\ count_timers (effects r2) = 1%nat /\
  LastTrackTime (window_after r2) = 1700000000000 /\
  In (navigation_timer (cleanNumber example_phone)) (effects r1) /\
  In (navigation_timer (cleanNumber example_phone)) (effects r2).
Proof.
  split; [reflexivity |]. split; [reflexivity |]. split; [reflexivity |].
  split; [discriminate |]. split; [reflexivity |].
  apply (X4_double_click_one_dispatch_two_timers (H := example_host)
           example_phone (Some click_event) example_phone (Some click_event)
           1700000000000 1700000000150 page_with_hook 1%N);
    [reflexivity | reflexivity | reflexivity | reflexivity
    | discriminate | reflexivity].
Defined.

Lemma X9_witness :
  let eff := ECall 1%N (contact_args (lit "1.00") (lit "USD")) in
  In eff (effects (handlePhoneCall (H := example_host) example_phone
                     (Some click_event) 1700000000000 page_with_hook)) /\
  is_call eff = true /\
  ((exists f, eff = ECall f [] /\ In eff (suppress_event (Some click_event))) \/
   (exists h, fbq page_with_hook = VFunction h /\
              eff = ECall h (contact_args (lit "1.00") (lit "USD")))).
Proof.
  intros eff.
  assert (Hin : In eff (effects (handlePhoneCall (H := example_host)
                                   example_phone (Some click_event)
                                   1700000000000 page_with_hook))).
  { vm_compute. do 4 right. left. reflexivity. }
  split; [exact Hin |]. split; [reflexivity |].
  exact (X9_phone_number_not_sent (H := example_host) example_phone
           (Some click_event) 1700000000000 page_with_hook eff Hin eq_refl).
Defined.

Lemma X10_witness :
  -62 < 0 /\
  200 * 4611686018427388 < 2 ^ (- -62) /\
  1000 <= 1700000000000 - LastTrackTime page_with_hook /\
  fbq page_with_hook = VFunction 1%N /\
  In (ECall 1%N (contact_args (lit "-0.00") (lit "EUR")))
     (effects (trackContactEvent (H := example_host) (Some minus_one_thousandth)
                 (Some (lit "EUR")) 1700000000000 page_with_hook)).
Proof.
  split; [reflexivity |]. split; [reflexivity |]. split; [discriminate |].
  split; [reflexivity |].
  apply (X10_small_values_sent_as_zero (H := example_host) true
           4611686018427388 (-62) (Some (lit "EUR")) 1700000000000
           page_with_hook 1%N);
    [reflexivity | reflexivity | discriminate | reflexivity].
Defined.

Lemma X11_witness :
  1000 <= 1700000000000 - LastTrackTime page_with_hook /\
  (In (EConsole LLog [VString (lit "fbq available:"); VBool true])
      (effects (checkPixelStatus (H := example_host) 1699999999000 page_with_hook))
   <-> dispatched (trackContactEvent (H := example_host) None None
                     1700000000000 page_with_hook) = true) /\
  In (EConsole LLog [VString (lit "Last track time:");
                     VString (Date_toLocaleTimeString (Host := example_host)
                                (LastTrackTime page_with_hook))])
     (effects (checkPixelStatus (H := example_host) 1699999999000 page_with_hook)).
Proof.
  split; [discriminate |].
  apply (X11_status_check_predicts_tracker (H := example_host) 1699999999000
           1700000000000 page_with_hook None None).
  discriminate.
Defined.

Lemma X12_witness :
  forallb (fun st => negb (hook_callable st)) calls_without_hook = true /\
  dispatch_times (H := example_host) page_tracked calls_without_hook = [] /\
  _lastContactTrackTime (final_window (H := example_host) page_tracked
                           calls_without_hook)
  = _lastContactTrackTime page_tracked.
Proof.
  split; [reflexivity |].
  apply (X12_failed_attempts_keep_guard (H := example_host) page_tracked
           calls_without_hook).
  reflexivity.
Defined.

Lemma X14_witness :
  calls_return (H := example_host)
    (run_trace (H := example_host) (initial_window example_href)
       mixed_session) = true /\
  _lastContactTrackTime
    (final_window (H := example_host) (initial_window example_href)
       mixed_session) = Some 1700000000500 /\
  1000 <= 1700000000500 /\
  In 1700000000500 (map at_time mixed_session).
Proof.
  assert (Hret : calls_return (H := example_host)
                   (run_trace (H := example_host) (initial_window example_href)
                      mixed_session) = true) by reflexivity.
  split; [exact Hret |]. split; [reflexivity |].
  pose proof (X14_stored_guard_on_a_page (H := example_host) example_href
                mixed_session Hret) as Hx.
  cbv zeta in Hx.
  change (_lastContactTrackTime
            (final_window (H := example_host) (initial_window example_href)
               mixed_session))
    with (Some 1700000000500) in Hx.
  exact (conj (proj1 Hx) (proj1 (proj2 Hx))).
Defined.

End PixelTracking.
